(** * Cache policy of [serveStatic] (src/static.ts)

    A shallow embedding of the one function of the repository,
    [serveStatic(app)], together with the parts of the Express 5 request
    pipeline it drives: [app.use], [express.static] (serve-static on top
    of send), [res.setHeader], [res.sendFile] and the final handler that
    answers when every layer has passed.

    [serveStatic] and its fallback arrow function are translated from
    src/static.ts. Node's [path] and [fs] and the Express packages
    (express 5, serve-static, send, ms, finalhandler, path-to-regexp) are
    not part of the repository: each function of theirs that the code
    reaches is written out here under the name it has there, following
    the package's behaviour on the inputs that [serveStatic] gives it.

    Outside the model: request headers (so conditional and range
    requests), percent-decoding of the request path (a request path with
    no percent-escape is its own decoding), the response headers derived
    from file metadata or from the length of a generated page, the
    headers Express adds to every response, and I/O errors other than a
    missing file.

    Layout: strings and POSIX paths, the filesystem, requests and
    responses, durations, send, route patterns, Express, the installation
    monad and [serveStatic], a sample deployment, the notions the
    properties are stated with, the stack of a host application with its
    error handlers; then the lemmas and the claims. *)

From Stdlib Require Import String Ascii List ZArith Lia Bool.
From stdpp Require Import base option gmap strings list pretty.

Local Open Scope list_scope.

(** ** Strings *)

Module Str.

Definition is_slash (c : ascii) : bool := Ascii.eqb c "/".
(* the separators the up-path test of send looks for: / and \ *)
Definition is_any_sep (c : ascii) : bool :=
  Ascii.eqb c "/" || Ascii.eqb c "\".

(* JS [s.split(sep)] for a one-character separator class *)
Fixpoint split_by (is_sep : ascii -> bool) (s : string) : list string :=
  match s with
  | EmptyString => [EmptyString]
  | String c s' =>
      if is_sep c then EmptyString :: split_by is_sep s'
      else match split_by is_sep s' with
           | [] => [String c EmptyString]
           | h :: t => String c h :: t
           end
  end.

Definition starts_with_slash (s : string) : bool :=
  match s with
  | String c _ => is_slash c
  | EmptyString => false
  end.

Fixpoint last_char (s : string) : option ascii :=
  match s with
  | EmptyString => None
  | String c EmptyString => Some c
  | String _ s' => last_char s'
  end.

Definition ends_with_slash (s : string) : bool :=
  match last_char s with
  | Some c => is_slash c
  | None => false
  end.

(* drop the last character *)
Fixpoint chop (s : string) : string :=
  match s with
  | EmptyString => EmptyString
  | String _ EmptyString => EmptyString
  | String c s' => String c (chop s')
  end.

Fixpoint contains_char (p : ascii -> bool) (s : string) : bool :=
  match s with
  | EmptyString => false
  | String c s' => p c || contains_char p s'
  end.

(* [name.toLowerCase()] on ASCII letters *)
Definition lower_ascii (c : ascii) : ascii :=
  let n := nat_of_ascii c in
  if (65 <=? n)%nat && (n <=? 90)%nat then ascii_of_nat (n + 32) else c.

Fixpoint to_lower (s : string) : string :=
  match s with
  | EmptyString => EmptyString
  | String c s' => String (lower_ascii c) (to_lower s')
  end.

(* [t] occurs inside [s] *)
Definition occurs_in (t s : string) : Prop :=
  exists pre post : string, s = pre +:+ t +:+ post.

End Str.

(** ** POSIX paths, as Node's [path] module computes them *)

Module Path.

(* normalizeString(path, allowAboveRoot), on the segments of the path *)
Fixpoint norm_segs (allowAboveRoot : bool) (segs stack : list string)
  : list string :=
  match segs with
  | [] => rev stack
  | seg :: rest =>
      if String.eqb seg "" || String.eqb seg "." then
        norm_segs allowAboveRoot rest stack
      else if String.eqb seg ".." then
        match stack with
        | top :: below =>
            if String.eqb top ".." then
              norm_segs allowAboveRoot rest
                (if allowAboveRoot then ".." :: stack else stack)
            else norm_segs allowAboveRoot rest below
        | [] =>
            norm_segs allowAboveRoot rest
              (if allowAboveRoot then [".."] else [])
        end
      else norm_segs allowAboveRoot rest (seg :: stack)
  end.

Definition normalizeString (p : string) (allowAboveRoot : bool) : string :=
  String.concat "/"
    (norm_segs allowAboveRoot (Str.split_by Str.is_slash p) []).

(* path.normalize *)
Definition normalize (p : string) : string :=
  if String.eqb p "" then "."
  else
    let isAbsolute := Str.starts_with_slash p in
    let trailingSeparator := Str.ends_with_slash p in
    let q := normalizeString p (negb isAbsolute) in
    if String.eqb q "" then
      if isAbsolute then "/" else if trailingSeparator then "./" else "."
    else
      let q' := if trailingSeparator then q +:+ "/" else q in
      if isAbsolute then "/" +:+ q' else q'.

(* path.join *)
Fixpoint join_raw (args : list string) (joined : option string)
  : option string :=
  match args with
  | [] => joined
  | arg :: rest =>
      if String.eqb arg "" then join_raw rest joined
      else join_raw rest
             (Some match joined with
                   | None => arg
                   | Some j => j +:+ "/" +:+ arg
                   end)
  end.

Definition join (args : list string) : string :=
  match join_raw args None with
  | None => "."
  | Some j => normalize j
  end.

(* the right-to-left loop of path.resolve; [args_rev] is the argument
   list reversed, [cwd] stands for process.cwd() *)
Fixpoint resolve_loop (args_rev : list string) (cwd acc : string)
  : string * bool :=
  match args_rev with
  | [] =>
      if String.eqb cwd "" then (acc, false)
      else (cwd +:+ "/" +:+ acc, Str.starts_with_slash cwd)
  | p :: rest =>
      if String.eqb p "" then resolve_loop rest cwd acc
      else
        let acc' := p +:+ "/" +:+ acc in
        if Str.starts_with_slash p then (acc', true)
        else resolve_loop rest cwd acc'
  end.

(* path.resolve *)
Definition resolve (cwd : string) (args : list string) : string :=
  let '(resolvedPath, resolvedAbsolute) := resolve_loop (rev args) cwd "" in
  let r := normalizeString resolvedPath (negb resolvedAbsolute) in
  if resolvedAbsolute then "/" +:+ r
  else if String.eqb r "" then "." else r.

End Path.

(** ** The filesystem

    A finite map from absolute, normalized paths to nodes. Symbolic links
    and permissions are outside the model. *)

Module Fs.

Inductive Node :=
| File (content : list Byte.byte)
| Dir.

Inductive ErrCode := ENOENT | ENOTDIR.

Inductive Stat :=
| IsFile (content : list Byte.byte)
| IsDir
| Fails (code : ErrCode).

(* the key under which a path is looked up: one trailing separator is
   dropped, except for the root *)
Definition key_of (p : string) : string :=
  if String.eqb p "/" then p
  else if Str.ends_with_slash p then Str.chop p else p.

(* the proper ancestors of an absolute path: /a/b/c gives /a and /a/b *)
Fixpoint ancestors_from (seen rest : string) : list string :=
  match rest with
  | EmptyString => []
  | String c rest' =>
      let more := ancestors_from (seen +:+ String c EmptyString) rest' in
      if Str.is_slash c && negb (String.eqb seen "") then seen :: more else more
  end.

Definition ancestors (p : string) : list string := ancestors_from "" p.

Definition is_file (fs : gmap string Node) (p : string) : bool :=
  match fs !! p with
  | Some (File _) => true
  | _ => false
  end.

(* why nothing is found at [p]: a regular file stands where a directory
   of the path should be (ENOTDIR), or the name is just not there *)
Definition missing_code (fs : gmap string Node) (p : string) : ErrCode :=
  if existsb (is_file fs) (ancestors p) then ENOTDIR else ENOENT.

(* fs.stat. The map is read as a tree: a node that is present is reached;
   a regular file named with a trailing separator is ENOTDIR *)
Definition stat (fs : gmap string Node) (p : string) : Stat :=
  match fs !! key_of p with
  | None => Fails (missing_code fs p)
  | Some Dir => IsDir
  | Some (File c) => if Str.ends_with_slash p then Fails ENOTDIR else IsFile c
  end.

(* fs.existsSync: true for any kind of node *)
Definition existsSync (fs : gmap string Node) (p : string) : bool :=
  match stat fs p with
  | Fails _ => false
  | _ => true
  end.

End Fs.

(** ** Requests and responses

    A request is its method and the pathname of its URL, after percent
    decoding. Request headers (conditional and range requests) are outside
    the model, and so are the response headers that send derives from file
    metadata (Content-Type, Last-Modified, ETag). *)

Inductive Method := GET | HEAD | POST | PUT | DELETE | PATCH | OPTIONS.

Record Request := { method : Method; path : string }.

Inductive Body :=
| NoBody
| FileBody (content : list Byte.byte)
| RedirectPage (location : string)
| ErrorPage (status : nat).

(* header names are stored lower-cased, as Node's OutgoingMessage does *)
Record Response := {
  statusCode : nat;
  headers : gmap string string;
  body : Body
}.

Definition fresh_response : Response :=
  {| statusCode := 200; headers := ∅; body := NoBody |}.

Definition setHeader (name value : string) (res : Response) : Response :=
  {| statusCode := statusCode res;
     headers := <[Str.to_lower name := value]> (headers res);
     body := body res |}.

Definition getHeader (res : Response) (name : string) : option string :=
  headers res !! Str.to_lower name.

Definition with_status (code : nat) (res : Response) : Response :=
  {| statusCode := code; headers := headers res; body := body res |}.

Definition end_with (b : Body) (res : Response) : Response :=
  {| statusCode := statusCode res; headers := headers res; body := b |}.

Definition is_get_or_head (m : Method) : bool :=
  match m with
  | GET | HEAD => true
  | _ => false
  end.

Definition is_head (m : Method) : bool :=
  match m with
  | HEAD => true
  | _ => false
  end.

Record HttpError := { err_status : nat; err_code : string }.

(* the error send raises for a file it cannot stat *)
Definition not_found (code : Fs.ErrCode) : HttpError :=
  {| err_status := 404;
     err_code := match code with
                 | Fs.ENOENT => "ENOENT"
                 | Fs.ENOTDIR => "ENOTDIR"
                 end |}.

(* what a middleware function did with the request *)
Inductive Outcome :=
| Done (res : Response)                  (* the response was ended *)
| Next (res : Response)                  (* next() *)
| NextErr (e : HttpError) (res : Response).   (* next(err), or a throw *)

Definition Handler : Type := gmap string Fs.Node -> Request -> Response -> Outcome.

(** ** Durations: the [ms] package, for integer amounts *)

Module Ms.

Definition second : Z := 1000.
Definition minute : Z := (second * 60)%Z.
Definition hour : Z := (minute * 60)%Z.
Definition day : Z := (hour * 24)%Z.
Definition week : Z := (day * 7)%Z.
(* y = d * 365.25 *)
Definition year : Z := (day * 1461 / 4)%Z.

Definition units : list (string * Z) :=
  [ ("", 1%Z); ("ms", 1%Z); ("msec", 1%Z); ("msecs", 1%Z);
    ("millisecond", 1%Z); ("milliseconds", 1%Z);
    ("s", second); ("sec", second); ("secs", second);
    ("second", second); ("seconds", second);
    ("m", minute); ("min", minute); ("mins", minute);
    ("minute", minute); ("minutes", minute);
    ("h", hour); ("hr", hour); ("hrs", hour); ("hour", hour); ("hours", hour);
    ("d", day); ("day", day); ("days", day);
    ("w", week); ("week", week); ("weeks", week);
    ("y", year); ("yr", year); ("yrs", year); ("year", year); ("years", year) ].

Fixpoint unit_of (u : string) (table : list (string * Z)) : option Z :=
  match table with
  | [] => None
  | (name, k) :: rest => if String.eqb u name then Some k else unit_of u rest
  end.

Definition digit_of (c : ascii) : option Z :=
  let n := nat_of_ascii c in
  if (48 <=? n)%nat && (n <=? 57)%nat then Some (Z.of_nat (n - 48)) else None.

Fixpoint read_digits (s : string) (acc : option Z) : option Z * string :=
  match s with
  | EmptyString => (acc, s)
  | String c s' =>
      match digit_of c with
      | Some d => read_digits s' (Some (10 * default 0 acc + d)%Z)
      | None => (acc, s)
      end
  end.

Fixpoint skip_spaces (s : string) : string :=
  match s with
  | String " " s' => skip_spaces s'
  | _ => s
  end.

(* ms(str); [None] is the undefined that ms returns for what it cannot
   parse *)
Definition parse (s : string) : option Z :=
  match read_digits s None with
  | (Some n, rest) =>
      match unit_of (Str.to_lower (skip_spaces rest)) units with
      | Some k => Some (n * k)%Z
      | None => None
      end
  | (None, _) => None
  end.

End Ms.

(** ** The file-serving capability: the send package *)

Module Send.

Inductive MaxAge :=
| MaxAgeString (s : string)
| MaxAgeNumber (n : Z).

Inductive Dotfiles := DotAllow | DotDeny | DotIgnore.

Record Options := {
  root : option string;
  maxAge : MaxAge;
  immutable : bool;
  index : list string;
  dotfiles : Dotfiles;
  cacheControl : bool;
  acceptRanges : bool
}.

(* MAX_MAXAGE = 60 * 60 * 24 * 365 * 1000 *)
Definition MAX_MAXAGE : Z := (60 * 60 * 24 * 365 * 1000)%Z.

(* this._maxage, in milliseconds *)
Definition maxage_ms (o : Options) : Z :=
  let raw :=
    match maxAge o with
    | MaxAgeString s => Ms.parse s
    | MaxAgeNumber n => Some n
    end in
  match raw with
  | Some n => Z.min (Z.max 0 n) MAX_MAXAGE
  | None => 0%Z
  end.

(* the Cache-Control value send writes when none is set yet *)
Definition cache_control_value (o : Options) : string :=
  let base := "public, max-age=" +:+ pretty (maxage_ms o / 1000)%Z in
  if immutable o then base +:+ ", immutable" else base.

(* UP_PATH_REGEXP = /(?:^|[\\/])\.\.(?:[\\/]|$)/ *)
Definition up_path (p : string) : bool :=
  existsb (String.eqb "..") (Str.split_by Str.is_any_sep p).

(* containsDotFile(parts) *)
Definition is_dotfile (part : string) : bool :=
  match part with
  | String c (String _ _) => Ascii.eqb c "."
  | _ => false
  end.

Definition containsDotFile (parts : list string) : bool :=
  existsb is_dotfile parts.

Definition is_nul (c : ascii) : bool := Ascii.eqb c zero.

(* what the stream reports to the listeners of its caller *)
Inductive Result :=
| Sent (res : Response)            (* 'file', headers written, stream piped *)
| Directory (full : string)        (* 'directory' *)
| Failed (status : nat) (code : string).   (* 'error' *)

(* SendStream.prototype.send, for a request with no conditional or range
   headers: headers that are already set are kept *)
Definition send_file (o : Options) (req : Request) (content : list Byte.byte)
    (res : Response) : Response :=
  let res1 :=
    if acceptRanges o && negb (bool_decide (is_Some (getHeader res "Accept-Ranges")))
    then setHeader "Accept-Ranges" "bytes" res else res in
  let res2 :=
    if cacheControl o && negb (bool_decide (is_Some (getHeader res1 "Cache-Control")))
    then setHeader "Cache-Control" (cache_control_value o) res1 else res1 in
  let res3 :=
    setHeader "Content-Length" (pretty (Z.of_nat (List.length content))) res2 in
  if is_head (method req) then end_with NoBody res3
  else end_with (FileBody content) res3.

(* onStatError: the missing-file codes become 404 *)
Definition stat_error (code : Fs.ErrCode) : Result :=
  match code with
  | Fs.ENOENT => Failed 404 "ENOENT"
  | Fs.ENOTDIR => Failed 404 "ENOTDIR"
  end.

(* SendStream.prototype.sendFile; no [extensions] are configured, so a
   missing file ends in onStatError whatever its name *)
Definition sendFile (o : Options) (fs : gmap string Fs.Node) (req : Request)
    (full : string) (res : Response) : Result :=
  match Fs.stat fs full with
  | Fs.Fails code => stat_error code
  | Fs.IsDir => Directory full
  | Fs.IsFile content =>
      if Str.ends_with_slash full then Failed 404 "ENOENT"
      else Sent (send_file o req content res)
  end.

(* SendStream.prototype.sendIndex *)
Fixpoint sendIndex (o : Options) (fs : gmap string Fs.Node) (req : Request)
    (full : string) (names : list string) (res : Response) : Result :=
  match names with
  | [] => Failed 404 "ENOENT"
  | name :: rest =>
      match Fs.stat fs (Path.join [full; name]) with
      | Fs.IsFile content => Sent (send_file o req content res)
      | _ => sendIndex o fs req full rest res
      end
  end.

(* the first half of SendStream.prototype.pipe: from the decoded path [p]
   handed to send to the file it names, or the status of the refusal *)
Definition locate (cwd : string) (o : Options) (p : string) : nat + string :=
  if Str.contains_char is_nul p then inl 400%nat else
  let located : option (list string * string) :=
    match root o with
    | Some r =>
        let p1 := if String.eqb p "" then p
                  else Path.normalize ("." +:+ "/" +:+ p) in
        if up_path p1 then None
        else Some (Str.split_by Str.is_slash p1,
                   Path.normalize (Path.join [r; p1]))
    | None =>
        if up_path p then None
        else Some (Str.split_by Str.is_slash (Path.normalize p),
                   Path.resolve cwd [p])
    end in
  match located with
  | None => inl 403%nat
  | Some (parts, full) =>
      if containsDotFile parts then
        match dotfiles o with
        | DotAllow => inr full
        | DotDeny => inl 403%nat
        | DotIgnore => inl 404%nat
        end
      else inr full
  end.

(* SendStream.prototype.pipe *)
Definition pipe (cwd : string) (o : Options) (fs : gmap string Fs.Node)
    (req : Request) (p : string) (res : Response) : Result :=
  match locate cwd o p with
  | inl status => Failed status ""
  | inr full =>
      match index o with
      | _ :: _ =>
          if Str.ends_with_slash p then sendIndex o fs req full (index o) res
          else sendFile o fs req full res
      | [] => sendFile o fs req full res
      end
  end.

End Send.

(** ** Route patterns (path-to-regexp 8, as Express 5 mounts them) *)

Module Route.

#[local] Unset Elimination Schemes.
Inductive Token :=
| TText (text : string)
| TParam (name : string)         (* :name, one or more characters, no / *)
| TWildcard (name : string)      (* *name, one or more characters *)
| TGroup (tokens : list Token).  (* {...}, optional *)
#[local] Set Elimination Schemes.

Fixpoint strip_prefix (pre s : string) : option string :=
  match pre, s with
  | EmptyString, _ => Some s
  | String a pre', String b s' =>
      if Ascii.eqb a b then strip_prefix pre' s' else None
  | String _ _, EmptyString => None
  end.

(* what can be left of [s] after one or more characters were consumed *)
Fixpoint wildcard_rests (s : string) : list string :=
  match s with
  | EmptyString => []
  | String _ s' => s' :: wildcard_rests s'
  end.

Fixpoint param_rests (s : string) : list string :=
  match s with
  | EmptyString => []
  | String c s' => if Str.is_slash c then [] else s' :: param_rests s'
  end.

(* the possible remainders of [s] once the token has matched a prefix *)
Fixpoint match_token (t : Token) (s : string) : list string :=
  match t with
  | TText text =>
      match strip_prefix text s with
      | Some r => [r]
      | None => []
      end
  | TParam _ => param_rests s
  | TWildcard _ => wildcard_rests s
  | TGroup ts =>
      s :: (fix seq (ts : list Token) (ss : list string) : list string :=
              match ts with
              | [] => ss
              | t' :: ts' => seq ts' (flat_map (match_token t') ss)
              end) ts [s]
  end.

Fixpoint match_tokens (ts : list Token) (ss : list string) : list string :=
  match ts with
  | [] => ss
  | t :: ts' => match_tokens ts' (flat_map (match_token t) ss)
  end.

(* a prefix match (end: false): what follows the match is nothing, or
   starts at a separator *)
Definition boundary (rest : string) : bool :=
  String.eqb rest "" || Str.starts_with_slash rest.

Inductive t :=
| MountRoot                            (* app.use(fn): the path defaults to / *)
| MountPattern (tokens : list Token).  (* app.use(path, fn) *)

Definition matches (r : t) (p : string) : bool :=
  match r with
  | MountRoot => true
  | MountPattern ts => existsb boundary (match_tokens ts [p])
  end.

End Route.

(* the pattern "/{*path}" of the fallback *)
Definition catch_all : Route.t :=
  Route.MountPattern [Route.TText "/"; Route.TGroup [Route.TWildcard "path"]].

(** ** Express: middleware, the application and its dispatcher *)

Module Express.

(* serve-static's [index] option: unset, false, or a list of names *)
Inductive IndexOption :=
| IndexDefault
| IndexOff
| IndexNames (names : list string).

Record StaticOptions := {
  maxAge : Send.MaxAge;
  immutable : bool;
  index : IndexOption;
  fallthrough : bool;
  redirect : bool
}.

(* the options send is created with by serve-static *)
Definition static_send_options (cwd root : string) (o : StaticOptions)
  : Send.Options :=
  {| Send.root := Some (Path.resolve cwd [root]);
     Send.maxAge := maxAge o;
     Send.immutable := immutable o;
     Send.index :=
       match index o with
       | IndexDefault => ["index.html"]
       | IndexOff => []
       | IndexNames names => names
       end;
     Send.dotfiles := Send.DotIgnore;
     Send.cacheControl := true;
     Send.acceptRanges := true |}.

(* collapseLeadingSlashes *)
Fixpoint drop_slashes (s : string) : string :=
  match s with
  | String c s' => if Str.is_slash c then drop_slashes s' else s
  | EmptyString => s
  end.

Definition collapseLeadingSlashes (s : string) : string :=
  if Str.starts_with_slash s then "/" +:+ drop_slashes s else s.

(* createRedirectDirectoryListener: 301 to the path with a separator *)
Definition redirect_response (req : Request) (res : Response) : Response :=
  let loc := collapseLeadingSlashes (path req +:+ "/") in
  end_with (if is_head (method req) then NoBody else RedirectPage loc)
    (setHeader "Location" loc
      (setHeader "X-Content-Type-Options" "nosniff"
        (setHeader "Content-Security-Policy" "default-src 'none'"
          (setHeader "Content-Type" "text/html; charset=UTF-8"
            (with_status 301 res))))).

Definition method_not_allowed (res : Response) : Response :=
  end_with NoBody
    (setHeader "Content-Length" "0"
      (setHeader "Allow" "GET, HEAD" (with_status 405 res))).

(* express.static(root, options): the middleware of serve-static. The
   application is mounted at the root, so the mount adjustment of the
   path never applies. *)
Definition static (cwd root : string) (o : StaticOptions) : Handler :=
  fun fs req res =>
    if negb (is_get_or_head (method req)) then
      if fallthrough o then Next res else Done (method_not_allowed res)
    else
      (* the 'error' listener; no file was determined yet *)
      let on_error (status : nat) (code : string) : Outcome :=
        if negb (fallthrough o) || negb (status <? 500)%nat
        then NextErr {| err_status := status; err_code := code |} res
        else Next res in
      match Send.pipe cwd (static_send_options cwd root o) fs req (path req) res with
      | Send.Sent r => Done r
      | Send.Directory _ =>
          if redirect o then
            if Str.ends_with_slash (path req) then on_error 404%nat ""
            else Done (redirect_response req res)
          else on_error 404%nat ""
      | Send.Failed status code => on_error status code
      end.

(* the options send is created with by res.sendFile(path) *)
Definition sendFile_options : Send.Options :=
  {| Send.root := None;
     Send.maxAge := Send.MaxAgeNumber 0;
     Send.immutable := false;
     Send.index := ["index.html"];
     Send.dotfiles := Send.DotIgnore;
     Send.cacheControl := true;
     Send.acceptRanges := true |}.

(* res.sendFile(path), with no options and no callback *)
Definition sendFile (cwd p : string) : Handler :=
  fun fs req res =>
    if negb (Str.starts_with_slash p) then
      (* TypeError: path must be absolute *)
      NextErr {| err_status := 500; err_code := "TypeError" |} res
    else
      match Send.pipe cwd sendFile_options fs req p res with
      | Send.Sent r => Done r
      | Send.Directory _ => Next res             (* EISDIR: next() *)
      | Send.Failed status code =>
          NextErr {| err_status := status; err_code := code |} res
      end.

Definition removeHeader (name : string) (res : Response) : Response :=
  {| statusCode := statusCode res;
     headers := delete (Str.to_lower name) (headers res);
     body := body res |}.

(* finalhandler: the answer when the stack is exhausted ([err = None]) or
   an error reached the end of it *)
Definition finalhandler (err : option HttpError) (req : Request)
    (res : Response) : Response :=
  let status :=
    match err with
    | None => 404%nat
    | Some e =>
        if (400 <=? err_status e)%nat && (err_status e <? 600)%nat
        then err_status e else 500%nat
    end in
  let res1 :=
    removeHeader "Content-Range"
      (removeHeader "Content-Language"
        (removeHeader "Content-Encoding" (with_status status res))) in
  let res2 :=
    setHeader "Content-Type" "text/html; charset=utf-8"
      (setHeader "X-Content-Type-Options" "nosniff"
        (setHeader "Content-Security-Policy" "default-src 'none'" res1)) in
  if is_head (method req) then end_with NoBody res2
  else end_with (ErrorPage status) res2.

(* a layer of regular middleware; serveStatic installs no error-handling
   middleware *)
Record Layer := { route : Route.t; handle : Handler }.

(* the middleware stack of the application *)
Definition App : Type := list Layer.

(* the router over a stack of regular middleware: the layers in order;
   an error handed to next(err) finds no error handler in such a stack
   and goes to the final handler (Host.route_from is the router for
   stacks that register error handlers as well). The second component
   lists the positions of the layers whose function ran *)
Fixpoint dispatch_from (idx : nat) (layers : list Layer)
    (fs : gmap string Fs.Node) (req : Request) (res : Response)
  : Response * list nat :=
  match layers with
  | [] => (finalhandler None req res, [])
  | l :: rest =>
      if Route.matches (route l) (path req) then
        match handle l fs req res with
        | Done r => (r, [idx])
        | Next r =>
            let '(out, ran) := dispatch_from (S idx) rest fs req r in
            (out, idx :: ran)
        | NextErr e r => (finalhandler (Some e) req r, [idx])
        end
      else dispatch_from (S idx) rest fs req res
  end.

Definition dispatch (app : App) (fs : gmap string Fs.Node) (req : Request)
  : Response * list nat :=
  dispatch_from 0 app fs req fresh_response.

End Express.

(** ** Installation: [serveStatic] of src/static.ts

    [serveStatic] runs once, at startup, against the application it is
    given. It can throw, and it mutates the application's stack: a state
    and exception monad over the stack, in which a throw leaves the stack
    as it was at that point. *)

Inductive Thrown := Error (message : string).

Definition Install (A : Type) : Type :=
  Express.App -> (Thrown + A) * Express.App.

Definition ret {A : Type} (a : A) : Install A := fun app => (inr a, app).

Definition bind {A B : Type} (c : Install A) (k : A -> Install B) : Install B :=
  fun app =>
    match c app with
    | (inl e, app') => (inl e, app')
    | (inr a, app') => k a app'
    end.

#[global] Instance install_ret : MRet Install := @ret.
#[global] Instance install_bind : MBind Install := fun A B k c => bind c k.

Definition throw {A : Type} (e : Thrown) : Install A := fun app => (inl e, app).

(* app.use(route, fn) pushes a layer at the end of the stack *)
Definition app_use (r : Route.t) (h : Handler) : Install unit :=
  fun app => (inr tt, app ++ [{| Express.route := r; Express.handle := h |}]).

Definition when (b : bool) (c : Install unit) : Install unit :=
  if b then c else mret tt.

(* what the module sees of its process: __dirname and the working
   directory that path.resolve falls back on *)
Record Env := { dirname : string; cwd : string }.

(* const distPath = path.resolve(__dirname, "public") *)
Definition distPath (env : Env) : string :=
  Path.resolve (cwd env) [dirname env; "public"].

(* path.resolve(distPath, "index.html") *)
Definition entryPath (env : Env) : string :=
  Path.resolve (cwd env) [distPath env; "index.html"].

Definition missing_dir_message (dir : string) : string :=
  "Could not find the build directory: " +:+ dir
  +:+ ", make sure to build the client first".

(* { maxAge: "1y", immutable: true, index: false }; fallthrough and
   redirect keep their defaults *)
Definition asset_options : Express.StaticOptions :=
  {| Express.maxAge := Send.MaxAgeString "1y";
     Express.immutable := true;
     Express.index := Express.IndexOff;
     Express.fallthrough := true;
     Express.redirect := true |}.

(* the middleware of lines 15-21 *)
Definition asset_handler (env : Env) : Handler :=
  Express.static (cwd env) (distPath env) asset_options.

(* the arrow function of lines 24-29 *)
Definition fallback_handler (env : Env) : Handler :=
  fun fs _req res =>
    let res := setHeader "Cache-Control" "no-cache, no-store, must-revalidate" res in
    let res := setHeader "Pragma" "no-cache" res in
    let res := setHeader "Expires" "0" res in
    Express.sendFile (cwd env) (Path.resolve (cwd env) [distPath env; "index.html"])
      fs _req res.

(* [fs] is the filesystem at the time of the call *)
Definition serveStatic (env : Env) (fs : gmap string Fs.Node) : Install unit :=
  let distPath := Path.resolve (cwd env) [dirname env; "public"] in
  when (negb (Fs.existsSync fs distPath))
    (throw (Error (missing_dir_message distPath))) ;;
  app_use Route.MountRoot
    (Express.static (cwd env) distPath asset_options) ;;
  app_use catch_all (fallback_handler env).

(* the two layers, in the order they are pushed *)
Definition installed (env : Env) : Express.App :=
  [ {| Express.route := Route.MountRoot; Express.handle := asset_handler env |};
    {| Express.route := catch_all; Express.handle := fallback_handler env |} ].

(* the response of the installed pipeline to one request *)
Definition respond (env : Env) (fs : gmap string Fs.Node) (req : Request)
  : Response :=
  fst (Express.dispatch (installed env) fs req).

(** ** A sample deployment *)

Module Demo.

Definition env : Env :=
  {| dirname := "/home/runner/workspace/dist"; cwd := "/home/runner/workspace" |}.

Definition index_html : list Byte.byte :=
  list_byte_of_string "<!doctype html><script src=/assets/app-3f2a1b.js></script>".

Definition app_js : list Byte.byte :=
  list_byte_of_string "console.log(1)".

Definition fs : gmap string Fs.Node :=
  <["/home/runner/workspace/dist/public" := Fs.Dir]>
  (<["/home/runner/workspace/dist/public/index.html" := Fs.File index_html]>
  (<["/home/runner/workspace/dist/public/assets" := Fs.Dir]>
  (<["/home/runner/workspace/dist/public/assets/app-3f2a1b.js" := Fs.File app_js]>
  (<["/home/runner/workspace/dist/public/.env" := Fs.File app_js]> ∅)))).

(* the same build with the entry document removed *)
Definition fs_no_index : gmap string Fs.Node :=
  delete "/home/runner/workspace/dist/public/index.html" fs.

(* a machine on which nothing was built *)
Definition fs_unbuilt : gmap string Fs.Node :=
  <["/home/runner/workspace/dist" := Fs.Dir]> ∅.

(* a machine whose build was written to /srv/build instead *)
Definition fs_elsewhere : gmap string Fs.Node :=
  <["/srv/build" := Fs.Dir]>
  (<["/srv/build/index.html" := Fs.File index_html]>
  (<["/home/runner/workspace/dist" := Fs.Dir]> ∅)).

Definition asset_js : string :=
  "/home/runner/workspace/dist/public/assets/app-3f2a1b.js".

Definition get (p : string) : Request := {| method := GET; path := p |}.
Definition post (p : string) : Request := {| method := POST; path := p |}.

End Demo.

(** ** The notions the properties are stated with *)

(* what the path of a request names under the build directory, as the
   asset handler resolves it *)
Inductive Target :=
| TargetFile (full : string) (content : list Byte.byte)
| TargetDir (full : string)
| TargetNone.

Definition asset_target (env : Env) (fs : gmap string Fs.Node) (p : string)
  : Target :=
  match Send.locate (cwd env)
          (Express.static_send_options (cwd env) (distPath env) asset_options) p with
  | inl _ => TargetNone
  | inr full =>
      match Fs.stat fs full with
      | Fs.IsFile content => TargetFile full content
      | Fs.IsDir => TargetDir full
      | Fs.Fails _ => TargetNone
      end
  end.

(* the asset handler answers: a file, or the redirect for a directory
   named without its trailing separator *)
Definition asset_hit (env : Env) (fs : gmap string Fs.Node) (req : Request)
  : bool :=
  is_get_or_head (method req) &&
  match asset_target env fs (path req) with
  | TargetFile _ _ => true
  | TargetDir _ => negb (Str.ends_with_slash (path req))
  | TargetNone => false
  end.

Definition no_cache (res : Response) : Prop :=
  getHeader res "Cache-Control" = Some "no-cache, no-store, must-revalidate"
  /\ getHeader res "Pragma" = Some "no-cache"
  /\ getHeader res "Expires" = Some "0".

Definition outcome_response (o : Outcome) : Response :=
  match o with
  | Done r | Next r | NextErr _ r => r
  end.

(* the body a file is answered with: nothing for HEAD *)
Definition body_for (m : Method) (content : list Byte.byte) : Body :=
  if is_head m then NoBody else FileBody content.

(* a path component that is an ordinary name: not empty, not hidden, free
   of separators and NUL *)
Definition plain_seg (s : string) : bool :=
  match s with
  | EmptyString => false
  | String c _ =>
      negb (Ascii.eqb c ".")
      && negb (Str.contains_char (fun a => Str.is_any_sep a || Send.is_nul a) s)
  end.

(* an absolute, normalized directory name with ordinary components, as
   __dirname is on a deployment with no hidden directory above the code *)
Definition plain_dir (d : string) : bool :=
  match d with
  | String "/" EmptyString => true
  | String "/" rest => forallb plain_seg (Str.split_by Str.is_slash rest)
  | _ => false
  end.

Definition abs_of (segs : list string) : string :=
  "/" +:+ String.concat "/" segs.

Definition plain_list (l : list string) : Prop :=
  Forall (fun s => plain_seg s = true) l.

(* the response once the three setHeader calls of the fallback have run *)
Definition set_no_cache (res : Response) : Response :=
  setHeader "Expires" "0"
    (setHeader "Pragma" "no-cache"
      (setHeader "Cache-Control" "no-cache, no-store, must-revalidate" res)).

(* the value the specification expects on assets, and the one send writes *)
Definition stated_asset_value : string := "max-age=31536000, immutable".
Definition asset_value : string := "public, max-age=31536000, immutable".

(* serveStatic as a function of the build directory, in the words of the
   contract: check [buildDir], then serve assets from it and fall back on
   its index.html *)
Definition serve_from (buildDir : string) (env : Env) (fs : gmap string Fs.Node)
  : Install unit :=
  when (negb (Fs.existsSync fs buildDir))
    (throw (Error (missing_dir_message buildDir))) ;;
  app_use Route.MountRoot
    (Express.static (cwd env) buildDir asset_options) ;;
  app_use catch_all
    (fun fs req res =>
       Express.sendFile (cwd env) (Path.resolve (cwd env) [buildDir; "index.html"])
         fs req
         (setHeader "Expires" "0"
           (setHeader "Pragma" "no-cache"
             (setHeader "Cache-Control" "no-cache, no-store, must-revalidate" res)))).

(** ** Further notions and sample inputs *)

(* send's view of a path handed to it without a root: the components of
   the normalized path include a hidden one *)
Definition hidden_path (p : string) : bool :=
  Send.containsDotFile (Str.split_by Str.is_slash (Path.normalize p)).

(* the same request under another method *)
Definition with_method (m : Method) (req : Request) : Request :=
  {| method := m; path := path req |}.

(* a request path in origin form with no percent-escape: the raw path
   and the decoded one are then the same string, and decoding cannot fail *)
Definition origin_path (p : string) : bool :=
  Str.starts_with_slash p && negb (Str.contains_char (Ascii.eqb "%") p).

(* the response once a middleware has left the stack of serveStatic with
   the outcome [o] and nothing follows it *)
Definition settle (req : Request) (o : Outcome) : Response :=
  match o with
  | Done r => r
  | Next r => Express.finalhandler None req r
  | NextErr e r => Express.finalhandler (Some e) req r
  end.

(* the path made of [root] and the components [m] below it *)
Definition below (root : string) (m : list string) : string :=
  match m with
  | [] => root
  | _ :: _ => root +:+ "/" +:+ String.concat "/" m
  end.

(* a path component that path.normalize keeps: neither empty nor "." *)
Definition kept (s : string) : bool :=
  negb (String.eqb s "" || String.eqb s ".").

(* path components as path.normalize leaves them below a root: free of
   slashes, none empty, none "." or ".." *)
Definition clean (m : list string) : Prop :=
  Forall (fun s => Str.contains_char Str.is_slash s = false) m
  /\ Forall (fun s => kept s = true) m
  /\ Forall (fun s => s <> "..") m.

(* two disks that hold the same nodes at the build directory and at every
   path made of it and ordinary components below it *)
Definition same_build (env : Env) (fs1 fs2 : gmap string Fs.Node) : Prop :=
  forall m, clean m -> fs1 !! below (distPath env) m = fs2 !! below (distPath env) m.

(** ** The stack of a host application

    [Express.App] holds regular middleware, which is all that serveStatic
    pushes. A host application may also register error-handling
    middleware (functions of four arguments); its stack is a list of
    entries of both kinds. *)

Module Host.

Definition ErrorHandler : Type := HttpError -> Handler.

Inductive Entry :=
| Use (l : Express.Layer)
| UseError (r : Route.t) (h : ErrorHandler).

(* the router over such a stack. [err] is the pending error: while there
   is one, regular layers are skipped and the first error handler whose
   route matches receives it; with none, error handlers are skipped. The
   second component lists the positions of the entries whose function
   ran. *)
Fixpoint route_from (idx : nat) (err : option HttpError) (entries : list Entry)
    (fs : gmap string Fs.Node) (req : Request) (res : Response)
  : Response * list nat :=
  match entries with
  | [] => (Express.finalhandler err req res, [])
  | entry :: rest =>
      let after (o : Outcome) : Response * list nat :=
        match o with
        | Done r => (r, [idx])
        | Next r =>
            let '(out, ran) := route_from (S idx) None rest fs req r in
            (out, idx :: ran)
        | NextErr e r =>
            let '(out, ran) := route_from (S idx) (Some e) rest fs req r in
            (out, idx :: ran)
        end in
      match entry, err with
      | Use l, None =>
          if Route.matches (Express.route l) (path req)
          then after (Express.handle l fs req res)
          else route_from (S idx) err rest fs req res
      | UseError r h, Some e =>
          if Route.matches r (path req)
          then after (h e fs req res)
          else route_from (S idx) err rest fs req res
      | _, _ => route_from (S idx) err rest fs req res
      end
  end.

Definition route (entries : list Entry) (fs : gmap string Fs.Node)
    (req : Request) : Response * list nat :=
  route_from 0 None entries fs req fresh_response.

(* the stack of an application that registers serveStatic's layers after
   its own [before] and the entries [after] later *)
Definition around (before : list Entry) (env : Env) (after : list Entry)
  : list Entry :=
  before ++ map Use (installed env) ++ after.

End Host.

(* two responses with the same status and the same headers *)
Definition same_head (a b : Response) : Prop :=
  statusCode a = statusCode b /\ headers a = headers b.

Module Cases.

(* a deployment below a hidden directory *)
Definition env_hidden : Env :=
  {| dirname := "/home/runner/.cache/app/dist"; cwd := "/" |}.

Definition fs_hidden : gmap string Fs.Node :=
  <["/home/runner/.cache/app/dist/public" := Fs.Dir]>
  (<["/home/runner/.cache/app/dist/public/index.html" := Fs.File Demo.index_html]> ∅).

(* a route registered by the host application: answers 204 *)
Definition health : Express.Layer :=
  {| Express.route := Route.MountPattern [Route.TText "/health"];
     Express.handle := fun _ _ res => Done (with_status 204 res) |}.

(* a deployment below a directory whose name holds backslashes and dots *)
Definition env_backslash : Env :=
  {| dirname := "/srv/app\..\dist"; cwd := "/" |}.

Definition fs_backslash : gmap string Fs.Node :=
  <["/srv/app\..\dist/public" := Fs.Dir]> ∅.

(* the build directory is a regular file *)
Definition fs_public_file : gmap string Fs.Node :=
  <["/home/runner/workspace/dist/public" := Fs.File Demo.app_js]> ∅.

(* the sample disk with a file outside the build directory *)
Definition fs_more : gmap string Fs.Node :=
  <["/etc/motd" := Fs.File Demo.app_js]> Demo.fs.

(* OPTIONS * *)
Definition options_star : Request := {| method := OPTIONS; path := "*" |}.

Definition head (p : string) : Request := {| method := HEAD; path := p |}.

(* an error handler of the host application: answers 500 itself *)
Definition report : Host.Entry :=
  Host.UseError Route.MountRoot (fun _ _ _ res => Done (with_status 500 res)).

End Cases.

(** * Sanity checks of the model *)

Example resolve_public :
  Path.resolve "/" ["/home/runner/workspace/dist"; "public"]
  = "/home/runner/workspace/dist/public".
Proof. reflexivity. Qed.

Example resolve_relative :
  Path.resolve "/srv" ["app/../dist"; "./public/"] = "/srv/dist/public".
Proof. reflexivity. Qed.

Example normalize_dots :
  Path.normalize ".//a/../assets/./app.js" = "assets/app.js".
Proof. reflexivity. Qed.

Example normalize_escape : Path.normalize ".//../etc/passwd" = "../etc/passwd".
Proof. reflexivity. Qed.

Example normalize_root : Path.normalize ".//" = "./".
Proof. reflexivity. Qed.

Example ms_one_year : Ms.parse "1y" = Some 31557600000%Z.
Proof. reflexivity. Qed.

Example ms_two_days : Ms.parse "2 days" = Some 172800000%Z.
Proof. reflexivity. Qed.

(* a year of 365.25 days is capped at 365 days *)
Example asset_max_age :
  Send.maxage_ms (Express.static_send_options "/" "/srv/public" asset_options)
  = 31536000000%Z.
Proof. reflexivity. Qed.

Example catch_all_root : Route.matches catch_all "/" = true.
Proof. reflexivity. Qed.

Example catch_all_deep : Route.matches catch_all "/dashboard/settings" = true.
Proof. reflexivity. Qed.

Example prefix_route_boundary :
  Route.matches (Route.MountPattern [Route.TText "/api"]) "/api/users" = true
  /\ Route.matches (Route.MountPattern [Route.TText "/api"]) "/apix" = false.
Proof. split; reflexivity. Qed.

Example demo_paths :
  distPath Demo.env = "/home/runner/workspace/dist/public"
  /\ entryPath Demo.env = "/home/runner/workspace/dist/public/index.html".
Proof. split; reflexivity. Qed.

(* the scenario of the specification: an existing asset *)
Example demo_asset :
  let r := respond Demo.env Demo.fs (Demo.get "/assets/app-3f2a1b.js") in
  statusCode r = 200 /\ body r = FileBody Demo.app_js.
Proof. split; vm_compute; reflexivity. Qed.

(* the root: a directory named with its separator, passed on *)
Example demo_root :
  snd (Express.dispatch (installed Demo.env) Demo.fs (Demo.get "/")) = [0; 1]
  /\ body (respond Demo.env Demo.fs (Demo.get "/")) = FileBody Demo.index_html.
Proof. split; vm_compute; reflexivity. Qed.

(* hidden files and paths that climb out of the root are passed on *)
Example demo_hidden :
  asset_target Demo.env Demo.fs "/.env" = TargetNone
  /\ asset_target Demo.env Demo.fs "/../../etc/passwd" = TargetNone
  /\ asset_target Demo.env Demo.fs "/a/../assets/app-3f2a1b.js"
     = TargetFile Demo.asset_js Demo.app_js.
Proof. repeat split; vm_compute; reflexivity. Qed.

Example demo_unbuilt :
  serveStatic Demo.env Demo.fs_unbuilt []
  = (inl (Error
       "Could not find the build directory: /home/runner/workspace/dist/public, make sure to build the client first"),
     []).
Proof. vm_compute. reflexivity. Qed.

(* a regular file where the build directory should be: the path exists,
   and the entry document below it is ENOTDIR, not ENOENT *)
Example demo_public_file :
  Fs.existsSync Cases.fs_public_file (distPath Demo.env) = true
  /\ Fs.stat Cases.fs_public_file (entryPath Demo.env) = Fs.Fails Fs.ENOTDIR
  /\ Fs.stat Demo.fs_no_index (entryPath Demo.env) = Fs.Fails Fs.ENOENT.
Proof. repeat split; vm_compute; reflexivity. Qed.

(* the redirect of a directory, and its empty body for HEAD *)
Example demo_redirect :
  statusCode (respond Demo.env Demo.fs (Demo.get "/assets")) = 301
  /\ body (respond Demo.env Demo.fs (Demo.get "/assets")) = RedirectPage "/assets/"
  /\ body (respond Demo.env Demo.fs (Cases.head "/assets")) = NoBody.
Proof. repeat split; vm_compute; reflexivity. Qed.

(* an error handler of the host receives the error of a missing entry
   document; without the error, it is skipped *)
Example demo_error_handler :
  Host.route (Host.around [] Demo.env [Cases.report]) Demo.fs_no_index
    (Demo.get "/dashboard")
  = (with_status 500 (set_no_cache fresh_response), [0; 1; 2])
  /\ snd (Host.route (Host.around [] Demo.env [Cases.report]) Demo.fs
            (Demo.get "/dashboard")) = [0; 1].
Proof. split; vm_compute; reflexivity. Qed.

(* a regular stack routes as Express.dispatch does *)
Example demo_host_regular :
  Host.route (Host.around [Host.Use Cases.health] Demo.env []) Demo.fs
    (Demo.get "/health")
  = Express.dispatch (Cases.health :: installed Demo.env) Demo.fs (Demo.get "/health").
Proof. vm_compute. reflexivity. Qed.

(** * Facts about strings and paths *)

Section StringFacts.

Lemma str_app_nil_l (y : string) : "" +:+ y = y.
Proof. reflexivity. Qed.

Lemma str_app_cons (c : ascii) (x y : string) : String c x +:+ y = String c (x +:+ y).
Proof. reflexivity. Qed.

Lemma slash_app (y : string) : "/" +:+ y = String "/" y.
Proof. reflexivity. Qed.

Lemma split_by_nonempty (f : ascii -> bool) (s : string) : Str.split_by f s <> [].
Proof.
  destruct s as [|c s]; simpl; [discriminate|].
  destruct (f c); [discriminate|].
  destruct (Str.split_by f s); discriminate.
Qed.

Lemma split_by_app_sep (f : ascii -> bool) (x : string) (c : ascii) (r : string) :
  f c = true ->
  Str.split_by f (x +:+ String c r) = Str.split_by f x ++ Str.split_by f r.
Proof.
  intros Hc. induction x as [|a x IH].
  - rewrite str_app_nil_l. simpl. now rewrite Hc.
  - rewrite str_app_cons. simpl. rewrite IH.
    destruct (f a); [reflexivity|].
    destruct (Str.split_by f x) eqn:E; [now apply split_by_nonempty in E|].
    reflexivity.
Qed.

Lemma split_by_nosep (f : ascii -> bool) (x : string) :
  Str.contains_char f x = false -> Str.split_by f x = [x].
Proof.
  induction x as [|a x IH]; simpl; [reflexivity|].
  intros [Ha Hx]%orb_false_iff. now rewrite Ha, IH.
Qed.

Lemma concat_cons2 (x y : string) (l : list string) :
  String.concat "/" (x :: y :: l) = x +:+ String "/" (String.concat "/" (y :: l)).
Proof. reflexivity. Qed.

Lemma concat_split (s : string) :
  String.concat "/" (Str.split_by Str.is_slash s) = s.
Proof.
  induction s as [|c s IH]; [reflexivity|]. simpl.
  destruct (Str.split_by Str.is_slash s) as [|h t] eqn:E;
    [now apply split_by_nonempty in E|].
  destruct (Str.is_slash c) eqn:Hc.
  - apply Ascii.eqb_eq in Hc as ->. rewrite concat_cons2, IH. reflexivity.
  - destruct t as [|h' t].
    + simpl in *. now rewrite IH.
    + rewrite concat_cons2, str_app_cons. rewrite concat_cons2 in IH. now rewrite IH.
Qed.

Lemma split_by_concat (f : ascii -> bool) (l : list string) :
  f "/"%char = true ->
  Forall (fun x => Str.contains_char f x = false) l ->
  l <> [] ->
  Str.split_by f (String.concat "/" l) = l.
Proof.
  intros Hf Hl. induction Hl as [|x l Hx Hl IH]; [congruence|]. intros _.
  destruct l as [|y l].
  - simpl. now apply split_by_nosep.
  - rewrite concat_cons2, split_by_app_sep by assumption.
    rewrite split_by_nosep by assumption. rewrite IH by discriminate.
    reflexivity.
Qed.

Lemma contains_char_app (f : ascii -> bool) (x y : string) :
  Str.contains_char f (x +:+ y) = Str.contains_char f x || Str.contains_char f y.
Proof.
  induction x as [|a x IH]; [reflexivity|].
  rewrite str_app_cons. simpl. now rewrite IH, orb_assoc.
Qed.

Lemma contains_char_weaken (f g : ascii -> bool) (s : string) :
  (forall a, g a = true -> f a = true) ->
  Str.contains_char f s = false -> Str.contains_char g s = false.
Proof.
  intros Hfg. induction s as [|a s IH]; simpl; [reflexivity|].
  intros [Ha Hs]%orb_false_iff. rewrite IH by assumption.
  destruct (g a) eqn:Hg; [|reflexivity]. apply Hfg in Hg. congruence.
Qed.

Lemma last_char_app (x y : string) :
  y <> "" -> Str.last_char (x +:+ y) = Str.last_char y.
Proof.
  intros Hy. induction x as [|a x IH]; [reflexivity|].
  rewrite str_app_cons. simpl. rewrite IH.
  destruct (x +:+ y) eqn:E; [|reflexivity].
  destruct x; [rewrite str_app_nil_l in E; congruence | discriminate].
Qed.

Lemma ends_with_slash_contains (s : string) :
  Str.contains_char Str.is_slash s = false -> Str.ends_with_slash s = false.
Proof.
  unfold Str.ends_with_slash.
  induction s as [|a s IH]; simpl; [reflexivity|].
  intros [Ha Hs]%orb_false_iff. destruct s; [assumption | now apply IH].
Qed.

Lemma chop_id_key (p : string) :
  Str.ends_with_slash p = false -> Fs.key_of p = p.
Proof.
  intros H. unfold Fs.key_of. rewrite H. now destruct (String.eqb p "/").
Qed.

End StringFacts.

(** * Paths made of ordinary names *)

Section PlainPaths.

Lemma plain_seg_inv (s : string) :
  plain_seg s = true ->
  exists c s', s = String c s'
    /\ Ascii.eqb c "." = false
    /\ Str.contains_char (fun a => Str.is_any_sep a || Send.is_nul a) s = false.
Proof.
  destruct s as [|c s']; [discriminate|]. unfold plain_seg.
  intros [H1 H2]%andb_true_iff.
  exists c, s'. split; [reflexivity|].
  split; [now apply negb_true_iff in H1 | now apply negb_true_iff in H2].
Qed.

Lemma plain_no_slash (s : string) :
  plain_seg s = true -> Str.contains_char Str.is_slash s = false.
Proof.
  intros (c & s' & -> & _ & H)%plain_seg_inv.
  eapply contains_char_weaken; [|exact H].
  intros a Ha. cbv beta. unfold Str.is_any_sep, Str.is_slash in *. now rewrite Ha.
Qed.

Lemma plain_no_sep (s : string) :
  plain_seg s = true -> Str.contains_char Str.is_any_sep s = false.
Proof.
  intros (c & s' & -> & _ & H)%plain_seg_inv.
  eapply contains_char_weaken; [|exact H].
  intros a Ha. cbv beta. now rewrite Ha.
Qed.

Lemma plain_no_nul (s : string) :
  plain_seg s = true -> Str.contains_char Send.is_nul s = false.
Proof.
  intros (c & s' & -> & _ & H)%plain_seg_inv.
  eapply contains_char_weaken; [|exact H].
  intros a Ha. cbv beta. rewrite Ha. apply orb_true_r.
Qed.

Lemma plain_not_special (s : string) :
  plain_seg s = true ->
  String.eqb s "" = false /\ String.eqb s "." = false
  /\ String.eqb s ".." = false /\ String.eqb ".." s = false
  /\ Send.is_dotfile s = false /\ Str.starts_with_slash s = false.
Proof.
  intros Hs. pose proof (plain_no_slash s Hs) as Hsl.
  destruct (plain_seg_inv s Hs) as (c & s' & -> & Hc & _).
  simpl in Hsl. apply orb_false_iff in Hsl as [Hsl _].
  repeat split; simpl; rewrite ?Hc; try reflexivity; try assumption.
  - rewrite Ascii.eqb_sym in Hc. simpl in Hc. now rewrite Hc.
  - now destruct s'.
Qed.

Lemma norm_segs_plain (b : bool) (l rest stack : list string) :
  plain_list l ->
  Path.norm_segs b (l ++ rest) stack = Path.norm_segs b rest (rev l ++ stack).
Proof.
  intros Hl. revert stack. induction Hl as [|s l Hs Hl IH]; intros stack.
  - reflexivity.
  - destruct (plain_not_special s Hs) as (E1 & E2 & E3 & _).
    simpl. rewrite E1, E2, E3. simpl. rewrite IH, <- app_assoc. reflexivity.
Qed.

Lemma norm_split_concat (b : bool) (l rest stack : list string) :
  plain_list l ->
  Path.norm_segs b (Str.split_by Str.is_slash (String.concat "/" l) ++ rest) stack
  = Path.norm_segs b rest (rev l ++ stack).
Proof.
  intros Hl. destruct l as [|x l].
  - reflexivity.
  - rewrite split_by_concat; [now apply norm_segs_plain | reflexivity | | discriminate].
    eapply Forall_impl; [exact Hl|]. intros s. apply plain_no_slash.
Qed.

Lemma abs_of_cons (l : list string) : abs_of l = String "/" (String.concat "/" l).
Proof. reflexivity. Qed.

Lemma concat_plain_nonempty (l : list string) :
  plain_list l -> l <> [] -> String.concat "/" l <> "".
Proof.
  intros Hl Hne. destruct Hl as [|x l Hx Hl]; [congruence|].
  destruct (plain_seg_inv x Hx) as (c & s' & -> & _).
  destruct l; [discriminate|]. rewrite concat_cons2, str_app_cons. discriminate.
Qed.

Lemma concat_plain_no_trailing (l : list string) :
  plain_list l -> l <> [] ->
  Str.ends_with_slash (String.concat "/" l) = false.
Proof.
  intros Hl. induction Hl as [|x l Hx Hl IH]; [congruence|]. intros _.
  destruct l as [|y l].
  - simpl. now apply ends_with_slash_contains, plain_no_slash.
  - rewrite concat_cons2. unfold Str.ends_with_slash.
    rewrite last_char_app by discriminate.
    assert (Hne : String.concat "/" (y :: l) <> "")
      by (apply concat_plain_nonempty; [assumption | discriminate]).
    specialize (IH ltac:(discriminate)). unfold Str.ends_with_slash in IH.
    remember (String.concat "/" (y :: l)) as z eqn:Ez. clear Ez.
    destruct z; [congruence | exact IH].
Qed.

Lemma abs_no_trailing (l : list string) :
  plain_list l -> l <> [] -> Str.ends_with_slash (abs_of l) = false.
Proof.
  intros Hl Hne. rewrite abs_of_cons.
  pose proof (concat_plain_no_trailing l Hl Hne) as H.
  pose proof (concat_plain_nonempty l Hl Hne) as H'.
  unfold Str.ends_with_slash in *.
  remember (String.concat "/" l) as z eqn:Ez. clear Ez.
  destruct z; [congruence | exact H].
Qed.

Lemma plain_list_snoc (l : list string) (name : string) :
  plain_list l -> plain_seg name = true -> plain_list (l ++ [name]).
Proof. intros Hl Hn. apply Forall_app. split; [assumption | now constructor]. Qed.

(* path.resolve(dir, name) appends the name *)
Lemma resolve_child (cwd : string) (l : list string) (name : string) :
  plain_list l -> plain_seg name = true ->
  Path.resolve cwd [abs_of l; name] = abs_of (l ++ [name]).
Proof.
  intros Hl Hn.
  destruct (plain_not_special name Hn) as (E1 & E2 & E3 & _ & _ & E6).
  unfold Path.resolve. simpl rev. simpl Path.resolve_loop.
  rewrite E1, E6. rewrite abs_of_cons. simpl.
  unfold Path.normalizeString. simpl.
  rewrite !slash_app.
  rewrite !split_by_app_sep by reflexivity.
  rewrite (split_by_nosep _ name) by now apply plain_no_slash.
  rewrite norm_split_concat by assumption.
  simpl. rewrite E1, E2, E3. simpl.
  rewrite app_nil_r, rev_involutive. reflexivity.
Qed.

(* path.resolve and path.normalize leave such a path alone *)
Lemma resolve_self (cwd : string) (l : list string) :
  plain_list l -> Path.resolve cwd [abs_of l] = abs_of l.
Proof.
  intros Hl. unfold Path.resolve. simpl rev. simpl Path.resolve_loop.
  rewrite abs_of_cons. simpl.
  unfold Path.normalizeString. simpl.
  rewrite !slash_app.
  rewrite split_by_app_sep by reflexivity.
  rewrite norm_split_concat by assumption.
  simpl. rewrite app_nil_r, rev_involutive. reflexivity.
Qed.

Lemma normalize_self (l : list string) :
  plain_list l -> l <> [] -> Path.normalize (abs_of l) = abs_of l.
Proof.
  intros Hl Hne. unfold Path.normalize.
  rewrite (abs_no_trailing l Hl Hne). rewrite abs_of_cons. simpl.
  unfold Path.normalizeString. simpl.
  rewrite <- (app_nil_r (Str.split_by _ _)).
  rewrite norm_split_concat by assumption.
  simpl. rewrite app_nil_r, rev_involutive.
  pose proof (concat_plain_nonempty l Hl Hne) as H.
  destruct (String.eqb_spec (String.concat "/" l) ""); [congruence | reflexivity].
Qed.

Lemma abs_no_up (l : list string) : plain_list l -> Send.up_path (abs_of l) = false.
Proof.
  intros Hl. unfold Send.up_path. rewrite abs_of_cons. simpl.
  destruct l as [|x l]; [reflexivity|].
  rewrite split_by_concat; [| reflexivity | | discriminate].
  - induction Hl as [|s l' Hs Hl' IH]; [reflexivity|].
    simpl. destruct (plain_not_special s Hs) as (_ & _ & _ & E & _).
    simpl in E. now rewrite E.
  - eapply Forall_impl; [exact Hl|]. intros s. apply plain_no_sep.
Qed.

Lemma concat_no_nul (l : list string) :
  plain_list l -> Str.contains_char Send.is_nul (String.concat "/" l) = false.
Proof.
  induction 1 as [|x l Hx Hl IH]; [reflexivity|].
  destruct l as [|y l]; [simpl; now apply plain_no_nul|].
  rewrite concat_cons2, contains_char_app. simpl.
  rewrite plain_no_nul by assumption. exact IH.
Qed.

Lemma abs_no_nul (l : list string) :
  plain_list l -> Str.contains_char Send.is_nul (abs_of l) = false.
Proof. intros Hl. rewrite abs_of_cons. simpl. now apply concat_no_nul. Qed.

Lemma plain_no_dotfile (l : list string) :
  plain_list l -> Send.containsDotFile l = false.
Proof.
  induction 1 as [|x l Hx Hl IH]; [reflexivity|].
  simpl. destruct (plain_not_special x Hx) as (_ & _ & _ & _ & E & _).
  now rewrite E.
Qed.

Lemma plain_dir_form (d : string) :
  plain_dir d = true -> exists l, plain_list l /\ d = abs_of l.
Proof.
  destruct d as [|c d]; [discriminate|].
  unfold plain_dir.
  destruct (Ascii.eqb_spec c "/") as [->|Hc].
  - destruct d as [|c' d'].
    + intros _. exists []. split; [constructor | reflexivity].
    + intros H. exists (Str.split_by Str.is_slash (String c' d')). split.
      * apply Forall_forall. intros s Hs.
        rewrite forallb_forall in H. apply H. now apply list_elem_of_In.
      * rewrite abs_of_cons, concat_split. reflexivity.
  - intros H. exfalso. apply Hc. clear Hc.
    destruct c as [[] [] [] [] [] [] [] []]; try discriminate; reflexivity.
Qed.

End PlainPaths.

(** * Response headers *)

Section Headers.

Lemma getHeader_set_eq (n v : string) (r : Response) :
  getHeader (setHeader n v r) n = Some v.
Proof. unfold getHeader, setHeader. simpl. apply lookup_insert_eq. Qed.

Lemma getHeader_set_ne (n m v : string) (r : Response) :
  Str.to_lower n <> Str.to_lower m ->
  getHeader (setHeader n v r) m = getHeader r m.
Proof. intros H. unfold getHeader, setHeader. simpl. now apply lookup_insert_ne. Qed.

Lemma getHeader_remove_ne (n m : string) (r : Response) :
  Str.to_lower n <> Str.to_lower m ->
  getHeader (Express.removeHeader n r) m = getHeader r m.
Proof.
  intros H. unfold getHeader, Express.removeHeader. simpl.
  now apply lookup_delete_ne.
Qed.

Lemma getHeader_end_with (b : Body) (r : Response) (m : string) :
  getHeader (end_with b r) m = getHeader r m.
Proof. reflexivity. Qed.

Lemma getHeader_with_status (k : nat) (r : Response) (m : string) :
  getHeader (with_status k r) m = getHeader r m.
Proof. reflexivity. Qed.

End Headers.

(* push a header lookup through the writes to other headers *)
Ltac other_headers :=
  repeat first
    [ rewrite getHeader_end_with
    | rewrite getHeader_with_status
    | rewrite getHeader_set_ne by (vm_compute; discriminate)
    | rewrite getHeader_remove_ne by (vm_compute; discriminate) ].

Section NoCache.

Lemma no_cache_set (res : Response) : no_cache (set_no_cache res).
Proof.
  unfold no_cache, set_no_cache. repeat split.
  - other_headers. apply getHeader_set_eq.
  - other_headers. apply getHeader_set_eq.
  - apply getHeader_set_eq.
Qed.

Lemma send_file_status (o : Send.Options) (req : Request)
    (c : list Byte.byte) (res : Response) :
  statusCode (Send.send_file o req c res) = statusCode res.
Proof.
  unfold Send.send_file.
  repeat match goal with |- context [if ?b then _ else _] => destruct b end;
    reflexivity.
Qed.

Lemma send_file_body (o : Send.Options) (req : Request)
    (c : list Byte.byte) (res : Response) :
  body (Send.send_file o req c res) = body_for (method req) c.
Proof.
  unfold Send.send_file, body_for. now destruct (is_head (method req)).
Qed.

(* send keeps a Cache-Control that is already there *)
Lemma send_file_keeps_cache_control (o : Send.Options) (req : Request)
    (c : list Byte.byte) (res : Response) (v : string) :
  getHeader res "Cache-Control" = Some v ->
  getHeader (Send.send_file o req c res) "Cache-Control" = Some v.
Proof.
  intros Hv. unfold Send.send_file.
  match goal with
  | |- context [if ?b then setHeader "Accept-Ranges" "bytes" res else res] =>
      remember (if b then setHeader "Accept-Ranges" "bytes" res else res)
        as res1 eqn:E1;
      assert (H1 : getHeader res1 "Cache-Control" = Some v)
        by (subst res1; destruct b; [other_headers|]; exact Hv)
  end.
  clear E1.
  rewrite H1. rewrite bool_decide_eq_true_2 by eauto.
  rewrite andb_false_r.
  destruct (is_head (method req)); other_headers; exact H1.
Qed.

(* and writes one when there is none, if [cacheControl] is on *)
Lemma send_file_sets_cache_control (o : Send.Options) (req : Request)
    (c : list Byte.byte) (res : Response) :
  Send.cacheControl o = true ->
  getHeader res "Cache-Control" = None ->
  getHeader (Send.send_file o req c res) "Cache-Control"
  = Some (Send.cache_control_value o).
Proof.
  intros Ho Hv. unfold Send.send_file.
  match goal with
  | |- context [if ?b then setHeader "Accept-Ranges" "bytes" res else res] =>
      remember (if b then setHeader "Accept-Ranges" "bytes" res else res)
        as res1 eqn:E1;
      assert (H1 : getHeader res1 "Cache-Control" = None)
        by (subst res1; destruct b; [other_headers|]; exact Hv)
  end.
  clear E1.
  rewrite H1, Ho. rewrite bool_decide_eq_false_2 by (intros [? ?]; discriminate).
  simpl.
  destruct (is_head (method req)); other_headers; apply getHeader_set_eq.
Qed.

Lemma send_file_keeps (o : Send.Options) (req : Request)
    (c : list Byte.byte) (res : Response) (name : string) :
  Str.to_lower name <> "accept-ranges" ->
  Str.to_lower name <> "cache-control" ->
  Str.to_lower name <> "content-length" ->
  getHeader (Send.send_file o req c res) name = getHeader res name.
Proof.
  intros H1 H2 H3. unfold Send.send_file.
  assert (E : forall n v r, Str.to_lower n <> Str.to_lower name ->
                getHeader (setHeader n v r) name = getHeader r name)
    by (intros; now apply getHeader_set_ne).
  repeat match goal with |- context [if ?b then _ else _] => destruct b end;
    rewrite ?getHeader_end_with, ?E; try reflexivity;
    vm_compute Str.to_lower at 1; congruence.
Qed.

Lemma no_cache_send_file (o : Send.Options) (req : Request)
    (c : list Byte.byte) (res : Response) :
  no_cache res -> no_cache (Send.send_file o req c res).
Proof.
  intros (H1 & H2 & H3). repeat split.
  - now apply send_file_keeps_cache_control.
  - rewrite send_file_keeps by (vm_compute; discriminate). exact H2.
  - rewrite send_file_keeps by (vm_compute; discriminate). exact H3.
Qed.

Lemma no_cache_finalhandler (err : option HttpError) (req : Request)
    (res : Response) :
  no_cache res -> no_cache (Express.finalhandler err req res).
Proof.
  intros (H1 & H2 & H3). unfold Express.finalhandler.
  destruct (is_head (method req)); repeat split; other_headers; assumption.
Qed.

End NoCache.

(** * The catch-all route *)

Section CatchAll.

Lemma wildcard_rests_all (r : string) : r <> "" -> In "" (Route.wildcard_rests r).
Proof.
  induction r as [|c r IH]; [congruence|]. intros _. simpl.
  destruct r; [now left | right; apply IH; discriminate].
Qed.

Lemma catch_all_matches (p : string) :
  Str.starts_with_slash p = true -> Route.matches catch_all p = true.
Proof.
  destruct p as [|c r]; [discriminate|]. simpl.
  intros Hc. apply Ascii.eqb_eq in Hc as ->.
  unfold Route.matches, catch_all. simpl.
  rewrite !app_nil_r. destruct r as [|c r]; [reflexivity|].
  apply orb_true_iff. right.
  apply existsb_exists. exists "". split; [|reflexivity].
  apply wildcard_rests_all. discriminate.
Qed.

End CatchAll.

(** * The two handlers *)

Section Handlers.

Variable env : Env.
Hypothesis dirname_plain : plain_dir (dirname env) = true.

Lemma distPath_form :
  exists l, plain_list l /\ l <> [] /\ distPath env = abs_of l.
Proof.
  destruct (plain_dir_form _ dirname_plain) as (l & Hl & E).
  exists (l ++ ["public"]). split; [|split].
  - now apply plain_list_snoc.
  - now destruct l.
  - unfold distPath. rewrite E. now apply resolve_child.
Qed.

Lemma entryPath_form :
  exists l, plain_list l /\ l <> [] /\ entryPath env = abs_of l.
Proof.
  destruct distPath_form as (l & Hl & _ & E).
  exists (l ++ ["index.html"]). split; [|split].
  - now apply plain_list_snoc.
  - now destruct l.
  - unfold entryPath. rewrite E. now apply resolve_child.
Qed.

(* send finds the entry document where path.resolve put it *)
Lemma locate_entry :
  Send.locate (cwd env) Express.sendFile_options (entryPath env)
  = inr (entryPath env).
Proof.
  destruct entryPath_form as (l & Hl & Hne & E). rewrite E.
  unfold Send.locate. simpl Send.root.
  rewrite abs_no_nul, abs_no_up by assumption.
  rewrite normalize_self, resolve_self by assumption.
  rewrite abs_of_cons. simpl Str.split_by.
  rewrite split_by_concat;
    [| reflexivity
     | eapply Forall_impl; [exact Hl | intros s; apply plain_no_slash]
     | assumption ].
  unfold Send.containsDotFile. simpl existsb.
  fold (Send.containsDotFile l). now rewrite plain_no_dotfile.
Qed.

Lemma entryPath_shape :
  Str.starts_with_slash (entryPath env) = true
  /\ Str.ends_with_slash (entryPath env) = false.
Proof.
  destruct entryPath_form as (l & Hl & Hne & E). rewrite E.
  split; [reflexivity | now apply abs_no_trailing].
Qed.

(* res.sendFile on the entry document, by what the disk holds there *)
Lemma sendFile_entry (fs : gmap string Fs.Node) (req : Request) (res : Response) :
  Express.sendFile (cwd env) (entryPath env) fs req res
  = match fs !! entryPath env with
    | Some (Fs.File c) => Done (Send.send_file Express.sendFile_options req c res)
    | Some Fs.Dir => Next res
    | None => NextErr (not_found (Fs.missing_code fs (entryPath env))) res
    end.
Proof.
  destruct entryPath_shape as [Habs Hnt].
  unfold Express.sendFile, Send.pipe. rewrite Habs, locate_entry. simpl.
  rewrite Hnt. unfold Send.sendFile, Fs.stat.
  rewrite chop_id_key by assumption. rewrite Hnt.
  destruct (fs !! entryPath env) as [[c|]|]; try reflexivity.
  now destruct (Fs.missing_code fs (entryPath env)).
Qed.

Lemma fallback_handler_eq (fs : gmap string Fs.Node) (req : Request)
    (res : Response) :
  fallback_handler env fs req res
  = Express.sendFile (cwd env) (entryPath env) fs req (set_no_cache res).
Proof. reflexivity. Qed.

End Handlers.

Section AssetHandler.

Lemma asset_cache_control (cwd root : string) :
  Send.cache_control_value (Express.static_send_options cwd root asset_options)
  = "public, max-age=31536000, immutable".
Proof. reflexivity. Qed.

Lemma stat_file_no_trailing (fs : gmap string Fs.Node) (p : string)
    (c : list Byte.byte) :
  Fs.stat fs p = Fs.IsFile c -> Str.ends_with_slash p = false.
Proof.
  unfold Fs.stat. destruct (fs !! Fs.key_of p) as [[c'|]|]; try discriminate.
  now destruct (Str.ends_with_slash p).
Qed.

(* the asset handler, by what the path of the request names *)
Lemma asset_handler_eq (env : Env) (fs : gmap string Fs.Node) (req : Request)
    (res : Response) :
  asset_handler env fs req res
  = if negb (is_get_or_head (method req)) then Next res
    else match asset_target env fs (path req) with
         | TargetFile _ c =>
             Done (Send.send_file
                     (Express.static_send_options (cwd env) (distPath env) asset_options)
                     req c res)
         | TargetDir _ =>
             if Str.ends_with_slash (path req) then Next res
             else Done (Express.redirect_response req res)
         | TargetNone => Next res
         end.
Proof.
  unfold asset_handler, Express.static, asset_target, Send.pipe.
  destruct (is_get_or_head (method req)); [|reflexivity]. simpl negb.
  cbv iota.
  destruct (Send.locate _ _ _) as [status|full] eqn:El.
  - assert (Hs : (status <? 500)%nat = true).
    { unfold Send.locate in El.
      repeat match type of El with
             | (if ?b then _ else _) = _ => destruct b
             | (match ?o with _ => _ end) = _ => destruct o
             | (let _ := _ in _) = _ => cbv zeta in El
             end; inversion El; reflexivity. }
    simpl. now rewrite Hs.
  - simpl. unfold Send.sendFile.
    destruct (Fs.stat fs full) as [c| |code] eqn:Es.
    + now rewrite (stat_file_no_trailing _ _ _ Es).
    + reflexivity.
    + now destruct code.
Qed.

Lemma asset_handler_passes (env : Env) (fs : gmap string Fs.Node)
    (req : Request) (res : Response) :
  asset_hit env fs req = false -> asset_handler env fs req res = Next res.
Proof.
  rewrite asset_handler_eq. unfold asset_hit.
  destruct (is_get_or_head (method req)); [|reflexivity]. simpl.
  destruct (asset_target env fs (path req)); try discriminate; [|reflexivity].
  intros H. now apply negb_false_iff in H as ->.
Qed.

End AssetHandler.

(** * Installation *)

Section Installation.

Lemma serveStatic_ok (env : Env) (fs : gmap string Fs.Node) (app : Express.App) :
  Fs.existsSync fs (distPath env) = true ->
  serveStatic env fs app = (inr tt, app ++ installed env).
Proof.
  intros H. unfold serveStatic. fold (distPath env).
  unfold mbind, install_bind, bind, when. rewrite H. simpl.
  unfold app_use. rewrite <- app_assoc. reflexivity.
Qed.

Lemma serveStatic_throws (env : Env) (fs : gmap string Fs.Node) (app : Express.App) :
  Fs.existsSync fs (distPath env) = false ->
  serveStatic env fs app = (inl (Error (missing_dir_message (distPath env))), app).
Proof.
  intros H. unfold serveStatic. fold (distPath env).
  unfold mbind, install_bind, bind, when. rewrite H. reflexivity.
Qed.

End Installation.

(** * The installed pipeline *)

Section Pipeline.

(* the response and the layers that ran, by the outcomes of the two
   handlers *)
Lemma dispatch_installed (env : Env) (fs : gmap string Fs.Node) (req : Request) :
  Str.starts_with_slash (path req) = true ->
  Express.dispatch (installed env) fs req
  = match asset_handler env fs req fresh_response with
    | Done r => (r, [0])
    | NextErr e r => (Express.finalhandler (Some e) req r, [0])
    | Next r =>
        match fallback_handler env fs req r with
        | Done r' => (r', [0; 1])
        | Next r' => (Express.finalhandler None req r', [0; 1])
        | NextErr e r' => (Express.finalhandler (Some e) req r', [0; 1])
        end
    end.
Proof.
  intros Hp. unfold Express.dispatch, installed.
  cbn [Express.dispatch_from Express.route Express.handle Route.matches].
  rewrite (catch_all_matches _ Hp).
  destruct (asset_handler env fs req fresh_response) as [r|r|e r]; try reflexivity.
  destruct (fallback_handler env fs req r); reflexivity.
Qed.

(* whatever send answers with was written by [send_file] on the response
   it was handed *)
Lemma pipe_sent (cwd : string) (o : Send.Options) (fs : gmap string Fs.Node)
    (req : Request) (p : string) (res r : Response) :
  Send.pipe cwd o fs req p res = Send.Sent r ->
  exists c, r = Send.send_file o req c res.
Proof.
  unfold Send.pipe. destruct (Send.locate cwd o p) as [?|full]; [discriminate|].
  assert (Hfile : Send.sendFile o fs req full res = Send.Sent r ->
                  exists c, r = Send.send_file o req c res).
  { unfold Send.sendFile. destruct (Fs.stat fs full) as [c| |[]]; try discriminate.
    destruct (Str.ends_with_slash full); [discriminate|].
    intros [= <-]. now exists c. }
  assert (Hindex : forall names,
            Send.sendIndex o fs req full names res = Send.Sent r ->
            exists c, r = Send.send_file o req c res).
  { induction names as [|n names IH]; simpl; [discriminate|].
    destruct (Fs.stat fs (Path.join [full; n])) as [c| |?]; try exact IH.
    intros [= <-]. now exists c. }
  destruct (Send.index o); [exact Hfile|].
  destruct (Str.ends_with_slash p); [apply Hindex | exact Hfile].
Qed.

(* a fallback that finds the entry document answers with it *)
Lemma fallback_serves_entry (env : Env) (fs : gmap string Fs.Node)
    (req : Request) (content : list Byte.byte) :
  plain_dir (dirname env) = true ->
  Str.starts_with_slash (path req) = true ->
  fs !! entryPath env = Some (Fs.File content) ->
  asset_handler env fs req fresh_response = Next fresh_response ->
  exists r, Express.dispatch (installed env) fs req = (r, [0; 1])
    /\ no_cache r /\ statusCode r = 200 /\ body r = body_for (method req) content.
Proof.
  intros Hd Hp Hentry Hpass.
  rewrite dispatch_installed, Hpass by assumption.
  rewrite fallback_handler_eq, sendFile_entry, Hentry by assumption.
  eexists. split; [reflexivity|]. split; [|split].
  - apply no_cache_send_file, no_cache_set.
  - now rewrite send_file_status.
  - apply send_file_body.
Qed.

End Pipeline.

(** * The entry document as a file of the build directory *)

Section EntryAsAsset.

Lemma str_app_assoc (a b c : string) : (a +:+ b) +:+ c = a +:+ (b +:+ c).
Proof.
  induction a as [|x a IH]; [reflexivity|]. rewrite !str_app_cons. now rewrite IH.
Qed.

Lemma concat_snoc (l : list string) (name : string) :
  l <> [] ->
  String.concat "/" (l ++ [name]) = String.concat "/" l +:+ "/" +:+ name.
Proof.
  induction l as [|x l IH]; [congruence|]. intros _.
  destruct l as [|y l].
  - reflexivity.
  - change ((x :: y :: l) ++ [name]) with (x :: y :: (l ++ [name])).
    rewrite !concat_cons2.
    change (y :: l ++ [name]) with ((y :: l) ++ [name]).
    rewrite IH by discriminate.
    rewrite str_app_assoc, str_app_cons. reflexivity.
Qed.

Lemma abs_child (l : list string) (name : string) :
  l <> [] -> abs_of l +:+ "/" +:+ name = abs_of (l ++ [name]).
Proof.
  intros Hne. rewrite !abs_of_cons, concat_snoc by assumption. reflexivity.
Qed.

Variable env : Env.
Hypothesis dirname_plain : plain_dir (dirname env) = true.

(* express.static looks for /index.html at the entry document *)
Lemma locate_index_html :
  Send.locate (cwd env)
    (Express.static_send_options (cwd env) (distPath env) asset_options)
    "/index.html"
  = inr (entryPath env).
Proof.
  destruct (distPath_form env dirname_plain) as (l & Hl & Hne & E).
  assert (Hl' : plain_list (l ++ ["index.html"]))
    by now apply plain_list_snoc.
  assert (Hne' : l ++ ["index.html"] <> []) by now destruct l.
  unfold entryPath. rewrite E, resolve_child by (assumption || reflexivity).
  unfold Send.locate.
  cbn [Send.root Express.static_send_options Send.dotfiles].
  rewrite resolve_self by assumption.
  change (Path.normalize ("." +:+ "/" +:+ "/index.html")) with "index.html".
  change (Str.contains_char Send.is_nul "/index.html") with false.
  change (String.eqb "/index.html" "") with false.
  change (Send.up_path "index.html") with false.
  change (Str.split_by Str.is_slash "index.html") with ["index.html"].
  change (Send.containsDotFile ["index.html"]) with false.
  cbv iota.
  unfold Path.join. rewrite abs_of_cons at 1.
  cbn [Path.join_raw String.eqb].
  change ("index.html" =? "")%string with false. cbv iota.
  rewrite <- abs_of_cons, abs_child by assumption.
  now rewrite !normalize_self by assumption.
Qed.

Lemma index_html_target (fs : gmap string Fs.Node) (content : list Byte.byte) :
  fs !! entryPath env = Some (Fs.File content) ->
  asset_target env fs "/index.html" = TargetFile (entryPath env) content.
Proof.
  intros Hentry. unfold asset_target. rewrite locate_index_html.
  destruct (entryPath_shape env dirname_plain) as [_ Hnt].
  unfold Fs.stat. rewrite chop_id_key, Hentry, Hnt by assumption. reflexivity.
Qed.

(* so an explicit request for it is answered by the asset handler, with
   the asset headers *)
Lemma index_html_served_as_asset (fs : gmap string Fs.Node)
    (content : list Byte.byte) (m : Method) :
  is_get_or_head m = true ->
  fs !! entryPath env = Some (Fs.File content) ->
  exists r,
    Express.dispatch (installed env) fs {| method := m; path := "/index.html" |}
    = (r, [0])
    /\ getHeader r "Cache-Control" = Some asset_value
    /\ body r = body_for m content.
Proof.
  intros Hm Hentry.
  rewrite dispatch_installed by reflexivity.
  rewrite asset_handler_eq. cbn [method path]. rewrite Hm.
  rewrite (index_html_target _ _ Hentry). cbn [negb].
  eexists. split; [reflexivity|]. split.
  - rewrite send_file_sets_cache_control by reflexivity.
    now rewrite asset_cache_control.
  - apply send_file_body.
Qed.

End EntryAsAsset.

(** * Where the asset handler looks *)

Section AssetLookup.

Lemma concat_app (l m : list string) :
  l <> [] -> m <> [] ->
  String.concat "/" (l ++ m) = String.concat "/" l +:+ "/" +:+ String.concat "/" m.
Proof.
  intros Hl Hm. induction l as [|x l IH]; [congruence|].
  destruct l as [|y l].
  - destruct m; [congruence | reflexivity].
  - change ((x :: y :: l) ++ m) with (x :: y :: (l ++ m)).
    rewrite !concat_cons2.
    change (y :: l ++ m) with ((y :: l) ++ m).
    rewrite IH by discriminate.
    rewrite str_app_assoc, str_app_cons. reflexivity.
Qed.

Lemma abs_app (l m : list string) :
  l <> [] -> m <> [] ->
  abs_of l +:+ "/" +:+ String.concat "/" m = abs_of (l ++ m).
Proof.
  intros Hl Hm. rewrite !abs_of_cons, concat_app by assumption. reflexivity.
Qed.

Lemma concat_no_up (l : list string) :
  plain_list l -> l <> [] -> Send.up_path (String.concat "/" l) = false.
Proof.
  intros Hl Hne. unfold Send.up_path.
  rewrite split_by_concat; [| reflexivity | | assumption].
  - clear Hne. induction Hl as [|s l' Hs Hl' IH]; [reflexivity|].
    simpl. destruct (plain_not_special s Hs) as (_ & _ & _ & E & _).
    simpl in E. now rewrite E.
  - eapply Forall_impl; [exact Hl|]. intros s. apply plain_no_sep.
Qed.

(* send turns the request path /s1/.../sn into the relative s1/.../sn *)
Lemma normalize_request (segs : list string) :
  plain_list segs -> segs <> [] ->
  Path.normalize ("." +:+ "/" +:+ abs_of segs) = String.concat "/" segs.
Proof.
  intros Hs Hne. rewrite abs_of_cons. unfold Path.normalize.
  change ("." +:+ "/" +:+ String "/" (String.concat "/" segs))
    with (String "." (String "/" (String "/" (String.concat "/" segs)))).
  pose proof (concat_plain_no_trailing segs Hs Hne) as Hnt.
  pose proof (concat_plain_nonempty segs Hs Hne) as Hnn.
  assert (Ht : Str.ends_with_slash
                 (String "." (String "/" (String "/" (String.concat "/" segs))))
               = false).
  { unfold Str.ends_with_slash in *.
    remember (String.concat "/" segs) as z eqn:Ez. clear Ez.
    destruct z; [congruence | exact Hnt]. }
  rewrite Ht.
  change (String.eqb (String "." ?x) "") with false.
  change (Str.starts_with_slash (String "." ?x)) with false.
  cbv iota. cbn [negb].
  unfold Path.normalizeString.
  change (Str.split_by Str.is_slash (String "." (String "/" (String "/" ?z))))
    with ("." :: "" :: Str.split_by Str.is_slash z).
  change (Path.norm_segs true ("." :: "" :: ?x) [])
    with (Path.norm_segs true x []).
  rewrite <- (app_nil_r (Str.split_by _ _)).
  rewrite norm_split_concat by assumption.
  simpl. rewrite app_nil_r, rev_involutive.
  destruct (String.eqb_spec (String.concat "/" segs) ""); [congruence|reflexivity].
Qed.

Variable env : Env.
Hypothesis dirname_plain : plain_dir (dirname env) = true.

(* a request path of ordinary names is looked up below the build
   directory, name by name *)
Lemma locate_plain_path (segs : list string) :
  plain_list segs -> segs <> [] ->
  Send.locate (cwd env)
    (Express.static_send_options (cwd env) (distPath env) asset_options)
    (abs_of segs)
  = inr (distPath env +:+ "/" +:+ String.concat "/" segs).
Proof.
  intros Hs Hne.
  destruct (distPath_form env dirname_plain) as (l & Hl & Hlne & E).
  assert (Hall : plain_list (l ++ segs)) by now apply Forall_app.
  assert (Hallne : l ++ segs <> []) by now destruct l.
  unfold Send.locate.
  cbn [Send.root Express.static_send_options Send.dotfiles].
  rewrite abs_no_nul by assumption.
  rewrite E, resolve_self by assumption.
  change (String.eqb (abs_of segs) "") with false. cbv iota.
  rewrite normalize_request by assumption.
  rewrite concat_no_up by assumption.
  rewrite split_by_concat;
    [| reflexivity
     | eapply Forall_impl; [exact Hs | intros s; apply plain_no_slash]
     | assumption ].
  rewrite plain_no_dotfile by assumption.
  unfold Path.join. rewrite abs_of_cons at 1.
  cbn [Path.join_raw String.eqb].
  destruct (String.eqb_spec (String.concat "/" segs) "") as [H0|_];
    [now apply concat_plain_nonempty in H0|].
  rewrite <- abs_of_cons.
  rewrite abs_app by assumption. now rewrite !normalize_self by assumption.
Qed.

(* what such a path names is what the disk holds there *)
Lemma asset_target_plain (fs : gmap string Fs.Node) (segs : list string) :
  plain_list segs -> segs <> [] ->
  let full := distPath env +:+ "/" +:+ String.concat "/" segs in
  asset_target env fs (abs_of segs)
  = match fs !! full with
    | Some (Fs.File c) => TargetFile full c
    | Some Fs.Dir => TargetDir full
    | None => TargetNone
    end.
Proof.
  intros Hs Hne full. unfold asset_target.
  rewrite locate_plain_path by assumption. fold full.
  destruct (distPath_form env dirname_plain) as (l & Hl & Hlne & E).
  assert (Hnt : Str.ends_with_slash full = false).
  { subst full. rewrite E, abs_app by assumption.
    apply abs_no_trailing; [now apply Forall_app | now destruct l]. }
  unfold Fs.stat. rewrite chop_id_key, Hnt by assumption.
  destruct (fs !! full) as [[c|]|]; reflexivity.
Qed.

(* nothing on the disk under such a path: the asset handler passes *)
Lemma plain_route_miss (fs : gmap string Fs.Node) (m : Method)
    (segs : list string) :
  plain_list segs -> segs <> [] ->
  fs !! (distPath env +:+ "/" +:+ String.concat "/" segs) = None ->
  asset_hit env fs {| method := m; path := abs_of segs |} = false.
Proof.
  intros Hs Hne Hnone. unfold asset_hit. cbn [method path].
  rewrite asset_target_plain by assumption. cbv zeta. rewrite Hnone.
  apply andb_false_r.
Qed.

(* the root is the build directory named with its separator: never a
   file, never a redirect *)
Lemma root_never_hit (fs : gmap string Fs.Node) (m : Method) :
  asset_hit env fs {| method := m; path := "/" |} = false.
Proof.
  destruct (distPath_form env dirname_plain) as (l & Hl & Hlne & E).
  assert (Hloc : Send.locate (cwd env)
            (Express.static_send_options (cwd env) (distPath env) asset_options)
            "/" = inr (distPath env +:+ "/")).
  { unfold Send.locate.
    cbn [Send.root Express.static_send_options Send.dotfiles].
    rewrite E, resolve_self by assumption.
    change (Str.contains_char Send.is_nul "/") with false.
    change (String.eqb "/" "") with false.
    change (Path.normalize ("." +:+ "/" +:+ "/")) with "./".
    change (Send.up_path "./") with false.
    change (Send.containsDotFile (Str.split_by Str.is_slash "./")) with false.
    cbv iota.
    assert (Hn : forall tail, In tail ["./"; ""] ->
              Path.normalize (abs_of l +:+ "/" +:+ tail) = abs_of l +:+ "/").
    { intros tail Htail. unfold Path.normalize. rewrite abs_of_cons.
      assert (Ht : Str.ends_with_slash
                (String "/" (String.concat "/" l) +:+ "/" +:+ tail) = true).
      { unfold Str.ends_with_slash. rewrite str_app_cons.
        destruct Htail as [<-|[<-|[]]].
        - rewrite slash_app.
          change (String "/" (String.concat "/" l +:+ String "/" "./"))
            with (String "/" (String.concat "/" l) +:+ String "/" "./").
          now rewrite last_char_app by discriminate.
        - change (String "/" (String.concat "/" l +:+ "/" +:+ ""))
            with (String "/" (String.concat "/" l) +:+ "/").
          now rewrite last_char_app by discriminate. }
      rewrite Ht. rewrite str_app_cons.
      change (String.eqb (String "/" ?x) "") with false.
      change (Str.starts_with_slash (String "/" ?x)) with true.
      cbv iota. cbn [negb].
      unfold Path.normalizeString.
      change (Str.split_by Str.is_slash (String "/" ?z))
        with ("" :: Str.split_by Str.is_slash z).
      rewrite slash_app, split_by_app_sep by reflexivity.
      change (Path.norm_segs false ("" :: ?x) []) with (Path.norm_segs false x []).
      rewrite norm_split_concat by assumption.
      assert (Hrest : Path.norm_segs false (Str.split_by Str.is_slash tail)
                        (rev l ++ []) = l).
      { destruct Htail as [<-|[<-|[]]]; simpl;
          now rewrite app_nil_r, rev_involutive. }
      rewrite Hrest.
      pose proof (concat_plain_nonempty l Hl Hlne) as Hnn.
      destruct (String.eqb_spec (String.concat "/" l) ""); [congruence|].
      reflexivity. }
    unfold Path.join. rewrite abs_of_cons at 1.
    cbn [Path.join_raw String.eqb]. change ("./" =? "")%string with false.
    cbv iota. rewrite <- abs_of_cons.
    rewrite (Hn "./") by (now left).
    change (abs_of l +:+ "/") with (abs_of l +:+ "/" +:+ "").
    rewrite (Hn "") by (right; now left). reflexivity. }
  unfold asset_hit, asset_target. cbn [method path]. rewrite Hloc.
  unfold Fs.stat.
  destruct (fs !! Fs.key_of (distPath env +:+ "/")) as [[c|]|].
  - assert (Ht : Str.ends_with_slash (distPath env +:+ "/") = true)
      by (unfold Str.ends_with_slash; now rewrite last_char_app by discriminate).
    rewrite Ht. apply andb_false_r.
  - apply andb_false_r.
  - apply andb_false_r.
Qed.

End AssetLookup.

(** * What the fallback leaves on the response *)

Section FallbackOutcome.

Lemma catch_all_needs_slash (p : string) :
  Route.matches catch_all p = true -> Str.starts_with_slash p = true.
Proof.
  destruct p as [|c r]; [discriminate|].
  destruct (Str.starts_with_slash (String c r)) eqn:E; [reflexivity|].
  unfold Str.starts_with_slash, Str.is_slash in E.
  unfold Route.matches, catch_all.
  cbn [Route.match_tokens flat_map Route.match_token].
  change (Route.strip_prefix "/" (String c r))
    with (if Ascii.eqb "/" c then Some r else None).
  rewrite Ascii.eqb_sym, E. discriminate.
Qed.

(* whatever res.sendFile does, the three headers stay *)
Lemma fallback_outcome_no_cache (env : Env) (fs : gmap string Fs.Node)
    (req : Request) (res : Response) :
  no_cache (outcome_response (fallback_handler env fs req res)).
Proof.
  rewrite fallback_handler_eq. unfold Express.sendFile.
  destruct (negb (Str.starts_with_slash (entryPath env)));
    [apply no_cache_set|].
  destruct (Send.pipe _ _ _ _ _ _) as [r| |] eqn:E;
    simpl; try apply no_cache_set.
  apply pipe_sent in E as [c ->]. apply no_cache_send_file, no_cache_set.
Qed.

Lemma settle_no_cache (req : Request) (o : Outcome) :
  no_cache (outcome_response o) -> no_cache (settle req o).
Proof.
  destruct o as [r|r|e r]; cbn [settle outcome_response];
    [trivial | apply no_cache_finalhandler | apply no_cache_finalhandler].
Qed.

Lemma dispatch_installed_settle (env : Env) (fs : gmap string Fs.Node)
    (req : Request) :
  Str.starts_with_slash (path req) = true ->
  asset_handler env fs req fresh_response = Next fresh_response ->
  Express.dispatch (installed env) fs req
  = (settle req (fallback_handler env fs req fresh_response), [0; 1]).
Proof.
  intros Hp Hpass. rewrite dispatch_installed, Hpass by assumption.
  now destruct (fallback_handler env fs req fresh_response).
Qed.

Lemma asset_hit_done (env : Env) (fs : gmap string Fs.Node) (req : Request)
    (res : Response) :
  asset_hit env fs req = true ->
  exists r, asset_handler env fs req res = Done r.
Proof.
  rewrite asset_handler_eq. unfold asset_hit.
  destruct (is_get_or_head (method req)); [|discriminate]. simpl.
  destruct (asset_target env fs (path req)); try discriminate; eauto.
  intros ->%negb_true_iff. eauto.
Qed.

End FallbackOutcome.

(** * The two routers agree on regular stacks *)

Section HostStack.

Lemma route_from_error_regular (idx : nat) (e : HttpError) (app : Express.App)
    (fs : gmap string Fs.Node) (req : Request) (res : Response) :
  Host.route_from idx (Some e) (map Host.Use app) fs req res
  = (Express.finalhandler (Some e) req res, []).
Proof.
  revert idx. induction app as [|l app IH]; intros idx; [reflexivity|].
  cbn [map Host.route_from]. apply IH.
Qed.

Lemma route_from_regular (idx : nat) (app : Express.App)
    (fs : gmap string Fs.Node) (req : Request) (res : Response) :
  Host.route_from idx None (map Host.Use app) fs req res
  = Express.dispatch_from idx app fs req res.
Proof.
  revert idx res. induction app as [|l app IH]; intros idx res; [reflexivity|].
  cbn [map Host.route_from Express.dispatch_from].
  destruct (Route.matches (Express.route l) (path req)); [|apply IH].
  destruct (Express.handle l fs req res) as [r|r|e r]; [reflexivity | |].
  - now rewrite IH.
  - now rewrite route_from_error_regular.
Qed.

End HostStack.

(** * The claims *)

(** C1, as the specification words it, fails on the sample deployment: the
    request GET /assets/app-3f2a1b.js names an existing file of the build
    directory that is not the entry document, and the Cache-Control header
    of the response is not the value "max-age=31536000, immutable". *)
Lemma C1_counterexample :
  asset_target Demo.env Demo.fs (path (Demo.get "/assets/app-3f2a1b.js"))
  = TargetFile Demo.asset_js Demo.app_js
  /\ Demo.asset_js <> entryPath Demo.env
  /\ getHeader (respond Demo.env Demo.fs (Demo.get "/assets/app-3f2a1b.js"))
       "Cache-Control"
     <> Some stated_asset_value.
Proof.
  split; [vm_compute; reflexivity|].
  split; vm_compute; discriminate.
Qed.

(** C1, amended: for every GET or HEAD request whose path resolves to an
    existing file of the build directory other than the entry document,
    the response carries the header
    Cache-Control: public, max-age=31536000, immutable (send writes it
    before it looks at anything else of the request). *)
Theorem C1_asset_cache_header (env : Env) (fs : gmap string Fs.Node)
    (req : Request) (full : string) (content : list Byte.byte) :
  is_get_or_head (method req) = true ->
  asset_target env fs (path req) = TargetFile full content ->
  full <> entryPath env ->
  getHeader (respond env fs req) "Cache-Control" = Some asset_value.
Proof.
  intros Hm Ht _.
  unfold respond, Express.dispatch, installed.
  cbn [Express.dispatch_from Express.route Express.handle Route.matches].
  rewrite asset_handler_eq, Hm, Ht. cbn [negb fst].
  rewrite send_file_sets_cache_control by reflexivity.
  now rewrite asset_cache_control.
Qed.

Lemma C1_witness :
  getHeader (respond Demo.env Demo.fs (Demo.get "/assets/app-3f2a1b.js"))
    "Cache-Control"
  = Some asset_value.
Proof.
  apply (C1_asset_cache_header Demo.env Demo.fs
           (Demo.get "/assets/app-3f2a1b.js") Demo.asset_js Demo.app_js).
  - reflexivity.
  - vm_compute. reflexivity.
  - vm_compute. discriminate.
Defined.




(** C3 on the sample deployment: the explicit request GET /index.html is
    answered by the asset handler alone, with the entry document's bytes
    under Cache-Control: public, max-age=31536000, immutable. *)
Theorem C3_index_html_cached_as_asset :
  exists r,
    Express.dispatch (installed Demo.env) Demo.fs (Demo.get "/index.html")
    = (r, [0])
    /\ getHeader r "Cache-Control" = Some asset_value
    /\ body r = FileBody Demo.index_html.
Proof.
  apply (index_html_served_as_asset Demo.env eq_refl Demo.fs Demo.index_html GET).
  - reflexivity.
  - vm_compute. reflexivity.
Qed.

(** C4: serveStatic throws exactly when fs.existsSync finds nothing at the
    path of the build directory; the message then contains that path and
    the stack of the application is as it was, no layer pushed; when the
    directory exists nothing is thrown and the two layers are pushed. *)
Theorem C4_startup_check (env : Env) (fs : gmap string Fs.Node)
    (app : Express.App) :
  serveStatic env fs app
  = (if Fs.existsSync fs (distPath env)
     then (inr tt, app ++ installed env)
     else (inl (Error (missing_dir_message (distPath env))), app))
  /\ Str.occurs_in (distPath env) (missing_dir_message (distPath env)).
Proof.
  split.
  - destruct (Fs.existsSync fs (distPath env)) eqn:E.
    + now apply serveStatic_ok.
    + now apply serveStatic_throws.
  - exists "Could not find the build directory: ",
           ", make sure to build the client first".
    reflexivity.
Qed.

(** C5, as the specification words it, fails: the request OPTIONS * is
    passed on by the asset handler, but its path does not start with a
    slash, the pattern of the fallback does not match it, and the fallback
    does not run; the final handler answers 404. *)
Lemma C5_counterexample :
  asset_handler Demo.env Demo.fs Cases.options_star fresh_response
  = Next fresh_response
  /\ Route.matches catch_all (path Cases.options_star) = false
  /\ snd (Express.dispatch (installed Demo.env) Demo.fs Cases.options_star) = [0]
  /\ statusCode (respond Demo.env Demo.fs Cases.options_star) = 404.
Proof. repeat split; vm_compute; reflexivity. Qed.

(** C5, amended: serveStatic pushes the asset handler and then the
    fallback, after the layers already there; the pattern of the fallback
    matches exactly the paths that start with a slash, the root included;
    for every request whose path starts with a slash and holds no
    percent-escape the asset handler runs first, and the fallback handles
    exactly the requests the asset handler passed on: when the asset
    handler answers, the response is its own and the fallback does not
    run; when it passes, the response is what the fallback made of the
    request, and carries the no-cache headers. *)
Theorem C5_order_and_catch_all (env : Env) (fs0 fs : gmap string Fs.Node)
    (app : Express.App) (req : Request) :
  Fs.existsSync fs0 (distPath env) = true ->
  origin_path (path req) = true ->
  snd (serveStatic env fs0 app)
  = app ++ [ {| Express.route := Route.MountRoot;
                Express.handle := asset_handler env |};
             {| Express.route := catch_all;
                Express.handle := fallback_handler env |} ]
  /\ (forall p, Route.matches catch_all p = true <-> Str.starts_with_slash p = true)
  /\ Route.matches catch_all "/" = true
  /\ (asset_hit env fs req = true ->
      exists r,
        asset_handler env fs req fresh_response = Done r
        /\ Express.dispatch (installed env) fs req = (r, [0]))
  /\ (asset_hit env fs req = false ->
      asset_handler env fs req fresh_response = Next fresh_response
      /\ Express.dispatch (installed env) fs req
         = (settle req (fallback_handler env fs req fresh_response), [0; 1])
      /\ no_cache (respond env fs req)).
Proof.
  intros Hex Hp. apply andb_true_iff in Hp as [Hp _].
  split; [now rewrite serveStatic_ok|].
  split; [intros p; split; [apply catch_all_needs_slash | apply catch_all_matches]|].
  split; [reflexivity|]. split.
  - intros Hhit. destruct (asset_hit_done env fs req fresh_response Hhit) as [r Hr].
    exists r. split; [exact Hr|]. now rewrite dispatch_installed, Hr.
  - intros Hmiss.
    pose proof (asset_handler_passes env fs req fresh_response Hmiss) as Hpass.
    split; [exact Hpass|].
    pose proof (dispatch_installed_settle env fs req Hp Hpass) as Hd.
    split; [exact Hd|]. unfold respond. rewrite Hd. cbn [fst].
    apply settle_no_cache, fallback_outcome_no_cache.
Qed.

Lemma C5_witness :
  snd (serveStatic Demo.env Demo.fs [])
  = [] ++ [ {| Express.route := Route.MountRoot;
               Express.handle := asset_handler Demo.env |};
            {| Express.route := catch_all;
               Express.handle := fallback_handler Demo.env |} ]
  /\ (forall p, Route.matches catch_all p = true <-> Str.starts_with_slash p = true)
  /\ Route.matches catch_all "/" = true
  /\ (asset_hit Demo.env Demo.fs (Demo.get "/dashboard") = true ->
      exists r,
        asset_handler Demo.env Demo.fs (Demo.get "/dashboard") fresh_response = Done r
        /\ Express.dispatch (installed Demo.env) Demo.fs (Demo.get "/dashboard")
           = (r, [0]))
  /\ (asset_hit Demo.env Demo.fs (Demo.get "/dashboard") = false ->
      asset_handler Demo.env Demo.fs (Demo.get "/dashboard") fresh_response
      = Next fresh_response
      /\ Express.dispatch (installed Demo.env) Demo.fs (Demo.get "/dashboard")
         = (settle (Demo.get "/dashboard")
              (fallback_handler Demo.env Demo.fs (Demo.get "/dashboard")
                 fresh_response), [0; 1])
      /\ no_cache (respond Demo.env Demo.fs (Demo.get "/dashboard"))).
Proof.
  apply (C5_order_and_catch_all Demo.env Demo.fs Demo.fs [] (Demo.get "/dashboard")).
  - vm_compute. reflexivity.
  - reflexivity.
Defined.

(** C6, as the specification words it, fails: serveStatic is not the
    contract [serve_from] applied to a build directory of the caller's
    choice. With the build in /srv/build and the code in
    /home/runner/workspace/dist, [serve_from "/srv/build"] installs its
    handlers while serveStatic throws, whatever it is called with. *)
Lemma C6_counterexample :
  fst (serve_from "/srv/build" Demo.env Demo.fs_elsewhere []) = inr tt
  /\ forall app : Express.App,
       serveStatic Demo.env Demo.fs_elsewhere app
       <> serve_from "/srv/build" Demo.env Demo.fs_elsewhere app.
Proof.
  split; [vm_compute; reflexivity|].
  intros app H. apply (f_equal fst) in H.
  rewrite serveStatic_throws in H by (vm_compute; reflexivity).
  unfold serve_from, mbind, install_bind, bind, when in H.
  change (Fs.existsSync Demo.fs_elsewhere "/srv/build") with true in H.
  simpl in H. discriminate H.
Qed.

(** C6, amended: serveStatic takes the application only; it is the contract
    [serve_from] at the one directory path.resolve(__dirname, "public"),
    computed from the location of the module when serveStatic runs, and
    whether it throws does not depend on the application it is given. *)
Theorem C6_directory_is_fixed (env : Env) (fs : gmap string Fs.Node)
    (app app' : Express.App) :
  serveStatic env fs app
  = serve_from (Path.resolve (cwd env) [dirname env; "public"]) env fs app
  /\ fst (serveStatic env fs app) = fst (serveStatic env fs app').
Proof.
  split; [reflexivity|].
  destruct (Fs.existsSync fs (distPath env)) eqn:E.
  - now rewrite !serveStatic_ok.
  - now rewrite !serveStatic_throws.
Qed.

(** C7, as the specification words it, fails on a deployment whose code
    directory has a component with backslashes around two dots: the build
    directory exists, the entry document is missing, and what the fallback
    forwards is not a file-not-found failure but the 403 with which send
    refuses the path. *)
Lemma C7_counterexample :
  Fs.existsSync Cases.fs_backslash (distPath Cases.env_backslash) = true
  /\ Cases.fs_backslash !! entryPath Cases.env_backslash = None
  /\ fallback_handler Cases.env_backslash Cases.fs_backslash (Demo.get "/")
       fresh_response
     = NextErr {| err_status := 403; err_code := "" |} (set_no_cache fresh_response)
  /\ statusCode (respond Cases.env_backslash Cases.fs_backslash (Demo.get "/")) = 403.
Proof. repeat split; vm_compute; reflexivity. Qed.

(** C7, amended: on a deployment whose code directory is an absolute path
    of ordinary names, when the path of the build directory exists and
    the entry document does not, serveStatic installs its two layers
    without an error; the fallback then does not answer a request itself:
    it forwards the 404 file-not-found error of send (ENOENT, or ENOTDIR
    when a regular file stands in the path) through next(err), the
    no-cache headers already set. Nothing in serveStatic recovers from it:
    for a request that reaches the fallback (path starting with a slash,
    no percent-escape, passed on by the asset handler) the error goes to
    the error handler the host registered, if any, and otherwise to the
    final handler, which answers 404. *)
Theorem C7_missing_entry (env : Env) (fs : gmap string Fs.Node)
    (app : Express.App) (req : Request) (h : Host.ErrorHandler) :
  plain_dir (dirname env) = true ->
  Fs.existsSync fs (distPath env) = true ->
  fs !! entryPath env = None ->
  origin_path (path req) = true ->
  asset_hit env fs req = false ->
  let miss := not_found (Fs.missing_code fs (entryPath env)) in
  serveStatic env fs app = (inr tt, app ++ installed env)
  /\ err_status miss = 404
  /\ (err_code miss = "ENOENT" \/ err_code miss = "ENOTDIR")
  /\ (forall res, fallback_handler env fs req res = NextErr miss (set_no_cache res))
  /\ Host.route (Host.around [] env [Host.UseError Route.MountRoot h]) fs req
     = (settle req (h miss fs req (set_no_cache fresh_response)), [0; 1; 2])
  /\ Express.dispatch (installed env) fs req
     = (Express.finalhandler (Some miss) req (set_no_cache fresh_response), [0; 1])
  /\ statusCode (respond env fs req) = 404.
Proof.
  intros Hd Hex Hentry Hp Hmiss miss. apply andb_true_iff in Hp as [Hp _].
  assert (Hfb : forall res,
            fallback_handler env fs req res = NextErr miss (set_no_cache res)).
  { intros res. now rewrite fallback_handler_eq, sendFile_entry, Hentry. }
  pose proof (asset_handler_passes env fs req fresh_response Hmiss) as Hpass.
  split; [now apply serveStatic_ok|].
  split; [reflexivity|].
  split; [subst miss; destruct (Fs.missing_code fs (entryPath env)); [now left | now right]|].
  split; [exact Hfb|].
  assert (Hdis : Express.dispatch (installed env) fs req
                 = (Express.finalhandler (Some miss) req
                      (set_no_cache fresh_response), [0; 1])).
  { rewrite dispatch_installed by assumption. now rewrite Hpass, Hfb. }
  split.
  - unfold Host.route, Host.around, installed.
    cbn [map Datatypes.app Host.route_from Express.route Express.handle Route.matches].
    rewrite Hpass, (catch_all_matches _ Hp), Hfb.
    now destruct (h miss fs req (set_no_cache fresh_response)).
  - split; [exact Hdis|].
    unfold respond. rewrite Hdis. unfold Express.finalhandler.
    now destruct (is_head (method req)).
Qed.

Lemma C7_witness :
  let miss := not_found (Fs.missing_code Demo.fs_no_index (entryPath Demo.env)) in
  serveStatic Demo.env Demo.fs_no_index [] = (inr tt, [] ++ installed Demo.env)
  /\ err_status miss = 404
  /\ (err_code miss = "ENOENT" \/ err_code miss = "ENOTDIR")
  /\ (forall res,
        fallback_handler Demo.env Demo.fs_no_index (Demo.get "/dashboard") res
        = NextErr miss (set_no_cache res))
  /\ Host.route
       (Host.around [] Demo.env
          [Host.UseError Route.MountRoot
             (fun _ _ _ res => Done (with_status 500 res))])
       Demo.fs_no_index (Demo.get "/dashboard")
     = (settle (Demo.get "/dashboard")
          (Done (with_status 500 (set_no_cache fresh_response))), [0; 1; 2])
  /\ Express.dispatch (installed Demo.env) Demo.fs_no_index (Demo.get "/dashboard")
     = (Express.finalhandler (Some miss) (Demo.get "/dashboard")
          (set_no_cache fresh_response), [0; 1])
  /\ statusCode (respond Demo.env Demo.fs_no_index (Demo.get "/dashboard")) = 404.
Proof.
  apply (C7_missing_entry Demo.env Demo.fs_no_index [] (Demo.get "/dashboard")
           (fun _ _ _ res => Done (with_status 500 res))).
  - reflexivity.
  - vm_compute. reflexivity.
  - vm_compute. reflexivity.
  - reflexivity.
  - vm_compute. reflexivity.
Defined.

(** C9: the fallback is res.sendFile applied to the response on which
    Cache-Control, Pragma and Expires are already set; whatever sendFile
    does then (answer, pass, or fail), the three headers are on the
    response it leaves, and they are still there after the final handler
    has turned a failure into an error page. *)
Theorem C9_headers_before_read (env : Env) (fs : gmap string Fs.Node)
    (req : Request) (res : Response) (err : option HttpError) :
  fallback_handler env fs req res
  = Express.sendFile (cwd env)
      (Path.resolve (cwd env) [distPath env; "index.html"]) fs req
      (set_no_cache res)
  /\ no_cache (set_no_cache res)
  /\ no_cache (outcome_response (fallback_handler env fs req res))
  /\ no_cache (Express.finalhandler err req
                 (outcome_response (fallback_handler env fs req res))).
Proof.
  split; [reflexivity|]. split; [apply no_cache_set|].
  assert (H : no_cache (outcome_response (fallback_handler env fs req res))).
  { change (fallback_handler env fs req res)
      with (Express.sendFile (cwd env) (entryPath env) fs req (set_no_cache res)).
    unfold Express.sendFile.
    destruct (negb (Str.starts_with_slash (entryPath env)));
      [apply no_cache_set|].
    destruct (Send.pipe _ _ _ _ _ _) as [r| |] eqn:E;
      simpl; try apply no_cache_set.
    apply pipe_sent in E as [c ->]. apply no_cache_send_file, no_cache_set. }
  split; [exact H | now apply no_cache_finalhandler].
Qed.




(** * Further properties of the code *)

Section CatchAllExact.

(** X1: the pattern of the fallback, /{*path}, matches a path exactly when
    the path starts with a slash. *)
Theorem catch_all_exact (p : string) :
  Route.matches catch_all p = true <-> Str.starts_with_slash p = true.
Proof.
  split; [|apply catch_all_matches].
  destruct p as [|c r]; [discriminate|].
  destruct (Str.starts_with_slash (String c r)) eqn:E; [reflexivity|].
  unfold Str.starts_with_slash, Str.is_slash in E.
  unfold Route.matches, catch_all.
  cbn [Route.match_tokens flat_map Route.match_token].
  change (Route.strip_prefix "/" (String c r))
    with (if Ascii.eqb "/" c then Some r else None).
  rewrite Ascii.eqb_sym, E. discriminate.
Qed.

End CatchAllExact.

Section TrailingSlash.

Lemma ends_with_slash_snoc (x : string) : Str.ends_with_slash (x +:+ "/") = true.
Proof. unfold Str.ends_with_slash. now rewrite last_char_app by discriminate. Qed.

Lemma ends_with_slash_app (x y : string) :
  Str.ends_with_slash y = true -> Str.ends_with_slash (x +:+ y) = true.
Proof.
  intros Hy. unfold Str.ends_with_slash in *.
  destruct y as [|c y]; [discriminate|].
  now rewrite last_char_app by discriminate.
Qed.

(* path.normalize keeps a trailing separator *)
Lemma normalize_trailing (x : string) :
  Str.ends_with_slash x = true -> Str.ends_with_slash (Path.normalize x) = true.
Proof.
  intros Hx. unfold Path.normalize.
  destruct x as [|c x]; [discriminate|].
  change (String.eqb (String c x) "") with false. cbv iota. rewrite Hx.
  destruct (String.eqb _ ""); [now destruct (Str.starts_with_slash _)|].
  destruct (Str.starts_with_slash _).
  - apply ends_with_slash_app, ends_with_slash_snoc.
  - apply ends_with_slash_snoc.
Qed.

Lemma join_trailing (r x : string) :
  Str.ends_with_slash x = true -> Str.ends_with_slash (Path.join [r; x]) = true.
Proof.
  intros Hx. unfold Path.join. cbn [Path.join_raw].
  destruct x as [|c x]; [discriminate|].
  change (String.eqb (String c x) "") with false. cbv iota.
  destruct (String.eqb r "").
  - now apply normalize_trailing.
  - apply normalize_trailing. now apply ends_with_slash_app, ends_with_slash_app.
Qed.

(* what the asset handler locates for a path with a trailing separator
   has one too *)
Lemma locate_trailing (env : Env) (p full : string) :
  Str.ends_with_slash p = true ->
  Send.locate (cwd env)
    (Express.static_send_options (cwd env) (distPath env) asset_options) p
  = inr full ->
  Str.ends_with_slash full = true.
Proof.
  intros Hp. unfold Send.locate.
  cbn [Send.root Express.static_send_options Send.dotfiles].
  destruct (Str.contains_char Send.is_nul p); [discriminate|].
  destruct p as [|c p]; [discriminate|].
  change (String.eqb (String c p) "") with false. cbv iota.
  destruct (Send.up_path _); [discriminate|].
  destruct (Send.containsDotFile _); [discriminate|].
  intros [= <-].
  apply normalize_trailing, join_trailing, normalize_trailing.
  now apply ends_with_slash_app, ends_with_slash_app.
Qed.

(** X2: with [index: false], a request whose path ends in a slash is never
    answered by the asset handler, whatever the disk holds: no directory
    index, no redirect, no file; the response is handed on untouched. *)
Theorem trailing_slash_passes (env : Env) (fs : gmap string Fs.Node)
    (req : Request) (res : Response) :
  Str.ends_with_slash (path req) = true ->
  asset_handler env fs req res = Next res.
Proof.
  intros Hp. apply asset_handler_passes. unfold asset_hit, asset_target.
  destruct (Send.locate _ _ _) as [?|full] eqn:El; [apply andb_false_r|].
  pose proof (locate_trailing env _ _ Hp El) as Hfull.
  destruct (Fs.stat fs full) as [c| |?] eqn:Es.
  - apply stat_file_no_trailing in Es. congruence.
  - rewrite Hp. apply andb_false_r.
  - apply andb_false_r.
Qed.

Lemma trailing_slash_passes_witness :
  asset_handler Demo.env Demo.fs (Demo.get "/assets/") fresh_response
  = Next fresh_response.
Proof.
  apply (trailing_slash_passes Demo.env Demo.fs (Demo.get "/assets/") fresh_response).
  reflexivity.
Defined.

End TrailingSlash.

Section FallbackIgnoresRequest.

Lemma send_file_method (o : Send.Options) (r1 r2 : Request)
    (c : list Byte.byte) (res : Response) :
  is_head (method r1) = is_head (method r2) ->
  Send.send_file o r1 c res = Send.send_file o r2 c res.
Proof. intros H. unfold Send.send_file. now rewrite H. Qed.

Lemma sendIndex_method (o : Send.Options) (fs : gmap string Fs.Node)
    (r1 r2 : Request) (full : string) (names : list string) (res : Response) :
  is_head (method r1) = is_head (method r2) ->
  Send.sendIndex o fs r1 full names res = Send.sendIndex o fs r2 full names res.
Proof.
  intros H. induction names as [|n names IH]; [reflexivity|]. simpl.
  destruct (Fs.stat fs (Path.join [full; n])); try exact IH.
  now rewrite (send_file_method o r1 r2).
Qed.

(* send looks at the request for its method only, and there only for HEAD *)
Lemma pipe_method (cwd : string) (o : Send.Options) (fs : gmap string Fs.Node)
    (r1 r2 : Request) (p : string) (res : Response) :
  is_head (method r1) = is_head (method r2) ->
  Send.pipe cwd o fs r1 p res = Send.pipe cwd o fs r2 p res.
Proof.
  intros H. unfold Send.pipe, Send.sendFile.
  destruct (Send.locate cwd o p) as [?|full]; [reflexivity|].
  rewrite (sendIndex_method o fs r1 r2) by assumption.
  destruct (Fs.stat fs full); try reflexivity.
  now rewrite (send_file_method o r1 r2).
Qed.



End FallbackIgnoresRequest.

Section HiddenDeployment.

(** X4: when the path of the entry document has a hidden component (a
    directory whose name starts with a dot), res.sendFile refuses it: the
    fallback never sends the document, whatever the disk holds and whatever
    the request; it forwards an error of status 400 or more, the no-cache
    headers already set. *)
Theorem hidden_entry_never_sent (env : Env) (fs : gmap string Fs.Node)
    (req : Request) (res : Response) :
  hidden_path (entryPath env) = true ->
  exists e,
    fallback_handler env fs req res = NextErr e (set_no_cache res)
    /\ 400 <= err_status e.
Proof.
  intros Hh. rewrite fallback_handler_eq. unfold Express.sendFile.
  destruct (negb (Str.starts_with_slash (entryPath env)));
    [eexists; split; [reflexivity | simpl; lia]|].
  unfold Send.pipe, Send.locate. cbn [Send.root Express.sendFile_options].
  destruct (Str.contains_char Send.is_nul (entryPath env));
    [eexists; split; [reflexivity | simpl; lia]|].
  destruct (Send.up_path (entryPath env));
    [eexists; split; [reflexivity | simpl; lia]|].
  unfold hidden_path in Hh. rewrite Hh. cbn [Send.dotfiles].
  eexists; split; [reflexivity | simpl; lia].
Qed.

Lemma hidden_entry_never_sent_witness :
  Cases.fs_hidden !! entryPath Cases.env_hidden = Some (Fs.File Demo.index_html)
  /\ exists e,
       fallback_handler Cases.env_hidden Cases.fs_hidden (Demo.get "/") fresh_response
       = NextErr e (set_no_cache fresh_response)
       /\ 400 <= err_status e.
Proof.
  split; [vm_compute; reflexivity|].
  apply (hidden_entry_never_sent Cases.env_hidden Cases.fs_hidden (Demo.get "/")
           fresh_response).
  vm_compute. reflexivity.
Defined.

End HiddenDeployment.

Section BuildDirectory.

Lemma str_app_nil_r (x : string) : x +:+ "" = x.
Proof. induction x as [|c x IH]; [reflexivity|]. now rewrite str_app_cons, IH. Qed.

(** X5: for a code directory that is an absolute path of ordinary names,
    the build directory is that directory followed by /public and the
    entry document is that followed by /index.html, whatever the working
    directory of the process. *)
Theorem build_directory_location (env : Env) (cwd' : string) :
  plain_dir (dirname env) = true ->
  distPath env = distPath {| dirname := dirname env; cwd := cwd' |}
  /\ entryPath env = entryPath {| dirname := dirname env; cwd := cwd' |}
  /\ (dirname env <> "/" ->
      distPath env = dirname env +:+ "/public"
      /\ entryPath env = dirname env +:+ "/public/index.html")
  /\ (dirname env = "/" ->
      distPath env = "/public" /\ entryPath env = "/public/index.html").
Proof.
  intros Hd. destruct (plain_dir_form _ Hd) as (l & Hl & E).
  assert (Hl' : plain_list (l ++ ["public"])) by now apply plain_list_snoc.
  assert (Hdist : forall c, Path.resolve c [dirname env; "public"]
                            = abs_of (l ++ ["public"]))
    by (intros c; rewrite E; now apply resolve_child).
  assert (Hentry : forall c,
            Path.resolve c [abs_of (l ++ ["public"]); "index.html"]
            = abs_of ((l ++ ["public"]) ++ ["index.html"]))
    by (intros c; now apply resolve_child).
  unfold entryPath, distPath. cbn [dirname cwd].
  rewrite !Hdist, !Hentry.
  split; [reflexivity|]. split; [reflexivity|]. split.
  - intros Hne. assert (Hlne : l <> []) by (intros ->; now apply Hne).
    rewrite <- !abs_child, <- E by (assumption || now destruct l).
    split; [reflexivity|]. now rewrite str_app_assoc.
  - intros Hroot. rewrite Hroot in E. destruct l as [|x l]; [split; reflexivity|].
    exfalso. inversion Hl as [|? ? Hx _]; subst.
    destruct (plain_seg_inv x Hx) as (c & s' & -> & _).
    destruct l; discriminate E.
Qed.

Lemma build_directory_location_witness :
  distPath Demo.env = distPath {| dirname := dirname Demo.env; cwd := "/tmp" |}
  /\ entryPath Demo.env = entryPath {| dirname := dirname Demo.env; cwd := "/tmp" |}
  /\ (dirname Demo.env <> "/" ->
      distPath Demo.env = dirname Demo.env +:+ "/public"
      /\ entryPath Demo.env = dirname Demo.env +:+ "/public/index.html")
  /\ (dirname Demo.env = "/" ->
      distPath Demo.env = "/public" /\ entryPath Demo.env = "/public/index.html").
Proof.
  apply (build_directory_location Demo.env "/tmp"). reflexivity.
Defined.

End BuildDirectory.

Section LaterLayers.

(** X6: nothing registered after serveStatic runs. On a deployment whose
    code directory is an absolute path of ordinary names and whose entry
    document is on the disk, a request without conditional or range
    headers whose path starts with a slash and holds no percent-escape,
    entering the two layers of serveStatic, gets
    the same response from the same layers whatever entries follow them,
    regular middleware or error handlers: the asset handler or the
    fallback ends it. This is why the frontend is served after the API
    routes. *)
Theorem later_layers_never_run (env : Env) (fs : gmap string Fs.Node)
    (req : Request) (content : list Byte.byte) (later : list Host.Entry) :
  plain_dir (dirname env) = true ->
  fs !! entryPath env = Some (Fs.File content) ->
  origin_path (path req) = true ->
  Host.route (Host.around [] env later) fs req
  = Express.dispatch (installed env) fs req
  /\ Forall (fun i => i < 2) (snd (Host.route (Host.around [] env later) fs req)).
Proof.
  intros Hd Hentry Hp. apply andb_true_iff in Hp as [Hp _].
  assert (E : Host.route (Host.around [] env later) fs req
              = Express.dispatch (installed env) fs req).
  { rewrite dispatch_installed by assumption.
    unfold Host.route, Host.around, installed.
    cbn [map Datatypes.app Host.route_from Express.route Express.handle
         Route.matches].
    rewrite (catch_all_matches _ Hp).
    destruct (asset_hit env fs req) eqn:Hhit.
    - destruct (asset_hit_done env fs req fresh_response Hhit) as [r ->].
      reflexivity.
    - rewrite (asset_handler_passes env fs req fresh_response Hhit).
      now rewrite fallback_handler_eq, sendFile_entry, Hentry. }
  split; [exact E|]. rewrite E, dispatch_installed by assumption.
  destruct (asset_hit env fs req) eqn:Hhit.
  - destruct (asset_hit_done env fs req fresh_response Hhit) as [r ->].
    repeat constructor.
  - rewrite (asset_handler_passes env fs req fresh_response Hhit).
    rewrite fallback_handler_eq, sendFile_entry, Hentry by assumption.
    repeat constructor.
Qed.

Lemma later_layers_never_run_witness :
  Host.route (Host.around [] Demo.env [Host.Use Cases.health; Cases.report])
    Demo.fs (Demo.get "/health")
  = Express.dispatch (installed Demo.env) Demo.fs (Demo.get "/health")
  /\ Forall (fun i => i < 2)
       (snd (Host.route
               (Host.around [] Demo.env [Host.Use Cases.health; Cases.report])
               Demo.fs (Demo.get "/health"))).
Proof.
  apply (later_layers_never_run Demo.env Demo.fs (Demo.get "/health")
           Demo.index_html [Host.Use Cases.health; Cases.report]).
  - reflexivity.
  - vm_compute. reflexivity.
  - reflexivity.
Defined.

End LaterLayers.

Section EveryRequestAnswered.

Lemma fresh_no_cache_control : getHeader fresh_response "Cache-Control" = None.
Proof. apply lookup_empty. Qed.

(** X7: on a deployment whose code directory is an absolute path of
    ordinary names and whose entry document is on the disk, every request
    without conditional or range headers whose path starts with a slash
    and holds no percent-escape is answered in one of three ways, and
    never with an error: a file of the build directory, status 200, under
    the asset Cache-Control; a 301 redirect for a directory, with no
    Cache-Control; or the entry document, status 200, under the no-cache
    headers. *)
Theorem every_request_answered (env : Env) (fs : gmap string Fs.Node)
    (req : Request) (content : list Byte.byte) :
  plain_dir (dirname env) = true ->
  fs !! entryPath env = Some (Fs.File content) ->
  origin_path (path req) = true ->
  let r := respond env fs req in
  (exists full c,
     asset_target env fs (path req) = TargetFile full c
     /\ statusCode r = 200
     /\ getHeader r "Cache-Control" = Some asset_value
     /\ body r = body_for (method req) c)
  \/ (exists full,
        asset_target env fs (path req) = TargetDir full
        /\ statusCode r = 301
        /\ getHeader r "Cache-Control" = None)
  \/ (asset_hit env fs req = false
      /\ statusCode r = 200
      /\ no_cache r
      /\ body r = body_for (method req) content).
Proof.
  intros Hd Hentry Hp r. apply andb_true_iff in Hp as [Hp _].
  destruct (asset_hit env fs req) eqn:Hhit.
  - unfold asset_hit in Hhit. apply andb_true_iff in Hhit as [Hm Ht].
    subst r. unfold respond.
    rewrite dispatch_installed, asset_handler_eq, Hm by assumption. cbn [negb].
    destruct (asset_target env fs (path req)) as [full c|full|]; [| |discriminate].
    + left. exists full, c. split; [reflexivity|]. cbn [fst].
      split; [now rewrite send_file_status|]. split; [|apply send_file_body].
      rewrite send_file_sets_cache_control
        by (reflexivity || apply fresh_no_cache_control).
      now rewrite asset_cache_control.
    + right. left. exists full. split; [reflexivity|].
      apply negb_true_iff in Ht. rewrite Ht. cbn [fst].
      split; [reflexivity|].
      unfold Express.redirect_response. other_headers.
      apply fresh_no_cache_control.
  - right. right. split; [reflexivity|].
    destruct (fallback_serves_entry env fs req content Hd Hp Hentry)
      as (r' & Hr & Hnc & Hst & Hb).
    { now apply asset_handler_passes. }
    subst r. unfold respond. rewrite Hr. cbn [fst].
    split; [assumption|]. split; assumption.
Qed.

Lemma every_request_answered_witness :
  let r := respond Demo.env Demo.fs (Demo.get "/assets") in
  (exists full c,
     asset_target Demo.env Demo.fs (path (Demo.get "/assets")) = TargetFile full c
     /\ statusCode r = 200
     /\ getHeader r "Cache-Control" = Some asset_value
     /\ body r = body_for (method (Demo.get "/assets")) c)
  \/ (exists full,
        asset_target Demo.env Demo.fs (path (Demo.get "/assets")) = TargetDir full
        /\ statusCode r = 301
        /\ getHeader r "Cache-Control" = None)
  \/ (asset_hit Demo.env Demo.fs (Demo.get "/assets") = false
      /\ statusCode r = 200
      /\ no_cache r
      /\ body r = body_for (method (Demo.get "/assets")) Demo.index_html).
Proof.
  apply (every_request_answered Demo.env Demo.fs (Demo.get "/assets")
           Demo.index_html).
  - reflexivity.
  - vm_compute. reflexivity.
  - reflexivity.
Defined.

End EveryRequestAnswered.

Section RedirectTarget.

Lemma drop_slashes_trailing (s : string) :
  Str.ends_with_slash s = true ->
  Str.ends_with_slash ("/" +:+ Express.drop_slashes s) = true.
Proof.
  induction s as [|c s IH]; [discriminate|]. intros Hs.
  cbn [Express.drop_slashes]. destruct (Str.is_slash c) eqn:Hc.
  - destruct s as [|c' s]; [reflexivity|]. apply IH. exact Hs.
  - now apply ends_with_slash_app.
Qed.



End RedirectTarget.

Section Traversal.

Lemma norm_segs_no_up (b : bool) (segs stack : list string) :
  Forall (fun s => s <> "..") segs ->
  Path.norm_segs b segs stack = rev stack ++ List.filter kept segs.
Proof.
  intros H. revert stack. induction H as [|s segs Hs _ IH]; intros stack.
  - simpl. now rewrite app_nil_r.
  - cbn [Path.norm_segs List.filter]. unfold kept at 1.
    destruct (String.eqb s "" || String.eqb s "."); [apply IH|].
    destruct (String.eqb_spec s ".."); [contradiction|].
    cbn [negb]. rewrite IH. cbn [rev]. now rewrite <- app_assoc.
Qed.

Lemma split_by_segments (f : ascii -> bool) (x : string) :
  Forall (fun s => Str.contains_char f s = false) (Str.split_by f x).
Proof.
  induction x as [|c x IH]; [repeat constructor|].
  cbn [Str.split_by]. destruct (f c) eqn:Hc.
  - constructor; [reflexivity | exact IH].
  - destruct (Str.split_by f x) as [|h t]; [repeat constructor; simpl; now rewrite Hc|].
    inversion IH as [|? ? Hh Ht]; subst.
    constructor; [simpl; now rewrite Hc, Hh | exact Ht].
Qed.

(* splitting at more separators refines the split at fewer *)
Lemma split_by_refine (f g : ascii -> bool) (p : string) :
  (forall c, f c = true -> g c = true) ->
  Str.split_by g p = flat_map (Str.split_by g) (Str.split_by f p).
Proof.
  intros Hfg. induction p as [|c p IH]; [reflexivity|].
  cbn [Str.split_by]. destruct (f c) eqn:Hf.
  - rewrite (Hfg c Hf). cbn [flat_map Str.split_by app]. now rewrite IH.
  - destruct (Str.split_by f p) as [|h t] eqn:E; [now apply split_by_nonempty in E|].
    cbn [flat_map] in *. cbn [Str.split_by]. rewrite IH.
    destruct (g c); [reflexivity|].
    destruct (Str.split_by g h) as [|h' t'] eqn:E';
      [now apply split_by_nonempty in E'|].
    reflexivity.
Qed.

(* a path that passes the up-path test has no ".." between slashes *)
Lemma no_up_segments (p : string) :
  Send.up_path p = false ->
  Forall (fun s => s <> "..") (Str.split_by Str.is_slash p).
Proof.
  unfold Send.up_path.
  rewrite (split_by_refine Str.is_slash Str.is_any_sep)
    by (intros c Hc; unfold Str.is_any_sep, Str.is_slash in *; now rewrite Hc).
  induction (Str.split_by Str.is_slash p) as [|s l IH]; [constructor|].
  cbn [flat_map]. rewrite existsb_app. intros [Hs Hl]%orb_false_iff.
  constructor; [|now apply IH].
  intros ->. discriminate Hs.
Qed.

Lemma concat_head_nonempty (c : ascii) (s : string) (rest : list string) :
  String.concat "/" (String c s :: rest) <> "".
Proof. destruct rest; [discriminate|]. rewrite concat_cons2, str_app_cons. discriminate. Qed.

Lemma filter_kept_all (k : list string) :
  Forall (fun s => kept s = true) k -> List.filter kept k = k.
Proof.
  induction 1 as [|s k Hs _ IH]; [reflexivity|].
  cbn [List.filter]. now rewrite Hs, IH.
Qed.

Lemma plain_kept (l : list string) :
  plain_list l -> Forall (fun s => kept s = true) l /\ Forall (fun s => s <> "..") l.
Proof.
  induction 1 as [|s l Hs _ [IH1 IH2]]; [split; constructor|].
  destruct (plain_not_special s Hs) as (E1 & E2 & E3 & _).
  split; constructor; try assumption.
  - unfold kept. now rewrite E1, E2.
  - intros ->. discriminate E3.
Qed.

(* the shape of a normalized absolute path *)
Lemma normalize_absolute (z : string) (k : list string) :
  Path.norm_segs false (Str.split_by Str.is_slash z) [] = k ->
  String.concat "/" k <> "" ->
  exists t, Path.normalize (String "/" z) = abs_of k +:+ t /\ (t = "" \/ t = "/").
Proof.
  intros Hk Hne. unfold Path.normalize.
  change (String.eqb (String "/" z) "") with false.
  change (Str.starts_with_slash (String "/" z)) with true.
  cbv iota. cbn [negb]. unfold Path.normalizeString.
  change (Str.split_by Str.is_slash (String "/" z))
    with ("" :: Str.split_by Str.is_slash z).
  change (Path.norm_segs false ("" :: ?x) []) with (Path.norm_segs false x []).
  rewrite Hk.
  destruct (String.eqb_spec (String.concat "/" k) ""); [contradiction|].
  destruct (Str.ends_with_slash (String "/" z)).
  - exists "/". split; [reflexivity | now right].
  - exists "". split; [|now left]. now rewrite str_app_nil_r.
Qed.

Section UnderRoot.

Variables (l : list string).
Hypothesis l_plain : plain_list l.
Hypothesis l_nonempty : l <> [].

Lemma concat_under_nonempty (m : list string) : String.concat "/" (l ++ m) <> "".
Proof.
  destruct l_plain as [|x l' Hx _]; [congruence|].
  destruct (plain_seg_inv x Hx) as (c & s' & -> & _).
  apply concat_head_nonempty.
Qed.

Lemma normalize_clean (m : list string) (t : string) :
  clean m -> t = "" \/ t = "/" ->
  exists t', Path.normalize (abs_of (l ++ m) +:+ t) = abs_of (l ++ m) +:+ t'
    /\ (t' = "" \/ t' = "/").
Proof.
  intros (Hm1 & Hm2 & Hm3) Ht.
  destruct (plain_kept l l_plain) as [Hl2 Hl3].
  assert (Hslash : Forall (fun s => Str.contains_char Str.is_slash s = false) (l ++ m)).
  { apply Forall_app. split; [|assumption].
    eapply Forall_impl; [exact l_plain|]. intros s. apply plain_no_slash. }
  assert (Hkept : Forall (fun s => kept s = true) (l ++ m))
    by (apply Forall_app; now split).
  assert (Hnoup : Forall (fun s => s <> "..") (l ++ m))
    by (apply Forall_app; now split).
  assert (Hne : l ++ m <> []) by (destruct l; [congruence | discriminate]).
  rewrite abs_of_cons, str_app_cons.
  apply normalize_absolute; [|apply concat_under_nonempty].
  destruct Ht as [-> | ->].
  - rewrite str_app_nil_r, split_by_concat by (reflexivity || assumption).
    rewrite norm_segs_no_up by assumption. now apply filter_kept_all.
  - rewrite split_by_app_sep by reflexivity.
    rewrite split_by_concat by (reflexivity || assumption).
    rewrite norm_segs_no_up
      by (apply Forall_app; split; [assumption | repeat constructor; discriminate]).
    cbn [rev app]. rewrite List.filter_app, filter_kept_all by assumption.
    cbn. apply app_nil_r.
Qed.

End UnderRoot.

Lemma containsDotFile_filter (parts : list string) :
  Send.containsDotFile parts = false ->
  Send.containsDotFile (List.filter kept parts) = false.
Proof.
  unfold Send.containsDotFile.
  induction parts as [|s parts IH]; [reflexivity|].
  cbn [existsb List.filter]. intros [Hs Hp]%orb_false_iff.
  destruct (kept s); [cbn [existsb]; rewrite Hs|]; now apply IH.
Qed.

(* the components [normalize_below] appends are the kept ones of [x] *)
Lemma normalize_below_kept (l : list string) (x : string) :
  plain_list l -> l <> [] ->
  Forall (fun s => s <> "..") (Str.split_by Str.is_slash x) ->
  exists t,
    Path.normalize (abs_of l +:+ "/" +:+ x)
    = abs_of (l ++ List.filter kept (Str.split_by Str.is_slash x)) +:+ t
    /\ (t = "" \/ t = "/")
    /\ clean (List.filter kept (Str.split_by Str.is_slash x)).
Proof.
  intros Hl Hne Hx. set (m := List.filter kept (Str.split_by Str.is_slash x)).
  assert (Hm : clean m).
  { unfold clean, m. repeat split; apply Forall_forall; intros s Hs;
      apply list_elem_of_In, filter_In in Hs as [Hin Hk]; try assumption.
    - pose proof (split_by_segments Str.is_slash x) as H.
      rewrite Forall_forall in H. apply H. now apply list_elem_of_In.
    - rewrite Forall_forall in Hx. apply Hx. now apply list_elem_of_In. }
  destruct (normalize_absolute (String.concat "/" l +:+ String "/" x) (l ++ m))
    as (t & Ht & Hcase).
  - rewrite split_by_app_sep by reflexivity.
    rewrite norm_split_concat by assumption.
    rewrite norm_segs_no_up by assumption.
    now rewrite app_nil_r, rev_involutive.
  - now apply concat_under_nonempty.
  - exists t. split; [|split; assumption].
    rewrite <- Ht. rewrite abs_of_cons, slash_app, str_app_cons. reflexivity.
Qed.

(* what the asset handler locates: the build directory followed by
   components that are ordinary for path.normalize and none of them
   hidden, then at most a trailing slash *)
Lemma locate_shape (env : Env) (l : list string) (p full : string) :
  plain_list l -> l <> [] -> distPath env = abs_of l ->
  Send.locate (cwd env)
    (Express.static_send_options (cwd env) (distPath env) asset_options) p
  = inr full ->
  exists m t,
    full = abs_of (l ++ m) +:+ t
    /\ (t = "" \/ t = "/")
    /\ clean m
    /\ Send.containsDotFile m = false.
Proof.
  intros Hl Hne E. unfold Send.locate.
  cbn [Send.root Express.static_send_options Send.dotfiles].
  rewrite E, resolve_self by assumption.
  destruct (Str.contains_char Send.is_nul p); [discriminate|].
  set (p1 := if String.eqb p "" then p else Path.normalize ("." +:+ "/" +:+ p)).
  destruct (Send.up_path p1) eqn:Hup; [discriminate|].
  destruct (Send.containsDotFile (Str.split_by Str.is_slash p1)) eqn:Hdot;
    [discriminate|].
  intros [= <-].
  unfold Path.join. cbn [Path.join_raw].
  change (String.eqb (abs_of l) "") with false. cbv iota.
  destruct (String.eqb p1 "").
  - rewrite !normalize_self by assumption.
    exists [], "". rewrite app_nil_r, str_app_nil_r.
    split; [reflexivity|]. split; [now left|].
    split; [repeat split; constructor | reflexivity].
  - destruct (normalize_below_kept l p1 Hl Hne (no_up_segments _ Hup))
      as (t & -> & Ht & Hm).
    destruct (normalize_clean l Hl Hne _ t Hm Ht) as (t' & -> & Ht').
    eexists _, t'. split; [reflexivity|]. split; [assumption|].
    split; [assumption | now apply containsDotFile_filter].
Qed.

Lemma below_abs (l m : list string) :
  l <> [] -> below (abs_of l) m = abs_of (l ++ m).
Proof.
  intros Hne. unfold below. destruct m as [|x m].
  - now rewrite app_nil_r.
  - now rewrite abs_app by (assumption || discriminate).
Qed.

(** X10: no request makes the asset handler leave the build directory. On
    a deployment whose code directory is an absolute path of ordinary
    names, whatever file or directory the asset handler resolves the path
    of a request to is the build directory followed by components that
    are free of slashes and none of them empty, "." or "..", then at most
    one trailing slash: the build directory itself or a path inside it,
    however many ".." the request path holds. *)
Theorem asset_stays_in_build_directory (env : Env) (fs : gmap string Fs.Node)
    (p full : string) :
  plain_dir (dirname env) = true ->
  (exists c, asset_target env fs p = TargetFile full c)
  \/ asset_target env fs p = TargetDir full ->
  exists m t,
    full = below (distPath env) m +:+ t
    /\ (t = "" \/ t = "/")
    /\ clean m.
Proof.
  intros Hd Ht. destruct (distPath_form env Hd) as (l & Hl & Hne & E).
  unfold asset_target in Ht.
  destruct (Send.locate _ _ p) as [?|full'] eqn:El.
  - destruct Ht as [[c Ht]|Ht]; discriminate.
  - assert (full' = full) as ->.
    { destruct (Fs.stat fs full'); destruct Ht as [[c' Ht]|Ht]; congruence. }
    destruct (locate_shape env l p full Hl Hne E El) as (m & t & -> & Ht' & Hm & _).
    exists m, t. rewrite E, below_abs by assumption.
    split; [reflexivity|]. split; assumption.
Qed.

Lemma asset_stays_in_build_directory_witness :
  exists m t,
    Demo.asset_js = below (distPath Demo.env) m +:+ t
    /\ (t = "" \/ t = "/")
    /\ clean m.
Proof.
  apply (asset_stays_in_build_directory Demo.env Demo.fs
           "/a/b/../../assets/./app-3f2a1b.js" Demo.asset_js).
  - reflexivity.
  - left. exists Demo.app_js. vm_compute. reflexivity.
Defined.

(** X11: the asset handler serves no hidden file. On a deployment whose
    code directory is an absolute path of ordinary names, every file it
    resolves a request to is the build directory followed by components
    none of which starts with a dot (nor is empty, "." or ".."): a file
    such as .env, or anything below a directory such as .git, is never
    answered as an asset. *)
Theorem served_files_not_hidden (env : Env) (fs : gmap string Fs.Node)
    (p full : string) (c : list Byte.byte) :
  plain_dir (dirname env) = true ->
  asset_target env fs p = TargetFile full c ->
  exists m,
    full = below (distPath env) m
    /\ clean m
    /\ Send.containsDotFile m = false.
Proof.
  intros Hd Ht. destruct (distPath_form env Hd) as (l & Hl & Hne & E).
  unfold asset_target in Ht.
  destruct (Send.locate _ _ p) as [?|full'] eqn:El; [discriminate|].
  destruct (Fs.stat fs full') as [c'| |?] eqn:Es; try discriminate.
  injection Ht as -> ->.
  apply stat_file_no_trailing in Es.
  destruct (locate_shape env l p full Hl Hne E El) as (m & t & -> & Ht & Hm & Hdot).
  exists m. split; [|split; assumption].
  destruct Ht as [-> | ->];
    [|rewrite ends_with_slash_snoc in Es; discriminate].
  rewrite str_app_nil_r, E. unfold below. destruct m as [|x m].
  - now rewrite app_nil_r.
  - now rewrite abs_app by (assumption || discriminate).
Qed.

Lemma served_files_not_hidden_witness :
  exists m,
    Demo.asset_js = below (distPath Demo.env) m
    /\ clean m
    /\ Send.containsDotFile m = false.
Proof.
  apply (served_files_not_hidden Demo.env Demo.fs "/assets/app-3f2a1b.js"
           Demo.asset_js Demo.app_js).
  - reflexivity.
  - vm_compute. reflexivity.
Defined.

End Traversal.

Section HeadLikeGet.

Lemma send_file_alike (o : Send.Options) (r1 r2 : Request)
    (c : list Byte.byte) (res : Response) :
  same_head (Send.send_file o r1 c res) (Send.send_file o r2 c res).
Proof.
  unfold Send.send_file, same_head.
  destruct (is_head (method r1)), (is_head (method r2)); split; reflexivity.
Qed.

(* a HEAD request is never answered with the bytes of a file *)
Lemma head_has_no_file_body (env : Env) (fs : gmap string Fs.Node)
    (req : Request) (c : list Byte.byte) :
  is_head (method req) = true ->
  body (respond env fs req) <> FileBody c.
Proof.
  intros Hh.
  assert (Hsend : forall o c' res, body (Send.send_file o req c' res) <> FileBody c)
    by (intros; rewrite send_file_body; unfold body_for; now rewrite Hh).
  assert (Hfinal : forall e res, body (Express.finalhandler e req res) <> FileBody c)
    by (intros; unfold Express.finalhandler; now rewrite Hh).
  unfold respond, Express.dispatch, installed.
  cbn [Express.dispatch_from Express.route Express.handle Route.matches].
  rewrite asset_handler_eq.
  assert (Hfb : forall res,
            body (fst (if Route.matches catch_all (path req)
                       then match fallback_handler env fs req res with
                            | Done r => (r, [1])
                            | Next r =>
                                let '(out, ran) :=
                                  Express.dispatch_from 2 [] fs req r in
                                (out, 1 :: ran)
                            | NextErr e r =>
                                (Express.finalhandler (Some e) req r, [1])
                            end
                       else Express.dispatch_from 2 [] fs req res))
            <> FileBody c).
  { intros res. destruct (Route.matches catch_all (path req)); [|apply Hfinal].
    rewrite fallback_handler_eq. unfold Express.sendFile.
    destruct (negb (Str.starts_with_slash (entryPath env))); [apply Hfinal|].
    destruct (Send.pipe _ _ _ _ _ _) as [r| |] eqn:E; try apply Hfinal.
    apply pipe_sent in E as [c' ->]. apply Hsend. }
  assert (Hnext : forall res,
            body (fst (let '(out, ran) :=
                         Express.dispatch_from 1
                           [{| Express.route := catch_all;
                               Express.handle := fallback_handler env |}]
                           fs req res in
                       (out, 0 :: ran)))
            <> FileBody c).
  { intros res. specialize (Hfb res).
    cbn [Express.dispatch_from Express.route Express.handle].
    destruct (Route.matches catch_all (path req)).
    - destruct (fallback_handler env fs req res); exact Hfb.
    - exact Hfb. }
  destruct (negb (is_get_or_head (method req))); [apply Hnext|].
  destruct (asset_target env fs (path req)); try apply Hnext.
  - apply Hsend.
  - destruct (Str.ends_with_slash (path req)); [apply Hnext|].
    unfold Express.redirect_response. cbn [fst body end_with].
    destruct (is_head (method req)); discriminate.
Qed.

(** X9: on a deployment whose code directory is an absolute path of
    ordinary names and whose entry document is on the disk, a HEAD request
    without conditional or range headers whose path starts with a slash
    and holds no percent-escape gets the status and the headers of the
    GET request for the same path, whether
    the asset handler or the fallback answers, and never the bytes of a
    file. *)
Theorem head_like_get (env : Env) (fs : gmap string Fs.Node) (p : string)
    (content c : list Byte.byte) :
  plain_dir (dirname env) = true ->
  fs !! entryPath env = Some (Fs.File content) ->
  origin_path p = true ->
  same_head (respond env fs {| method := HEAD; path := p |})
            (respond env fs {| method := GET; path := p |})
  /\ body (respond env fs {| method := HEAD; path := p |}) <> FileBody c.
Proof.
  intros Hd Hentry Hp. apply andb_true_iff in Hp as [Hp _].
  split; [|now apply head_has_no_file_body].
  set (h := {| method := HEAD; path := p |}).
  set (g := {| method := GET; path := p |}).
  unfold respond. rewrite !dispatch_installed by exact Hp.
  rewrite !asset_handler_eq. cbn [method path is_get_or_head negb h g].
  destruct (asset_target env fs p) as [full c'|full|].
  - apply send_file_alike.
  - destruct (Str.ends_with_slash p).
    + rewrite !fallback_handler_eq, !sendFile_entry, Hentry by assumption.
      apply send_file_alike.
    + split; reflexivity.
  - rewrite !fallback_handler_eq, !sendFile_entry, Hentry by assumption.
    apply send_file_alike.
Qed.

Lemma head_like_get_witness :
  same_head (respond Demo.env Demo.fs {| method := HEAD; path := "/assets/app-3f2a1b.js" |})
            (respond Demo.env Demo.fs {| method := GET; path := "/assets/app-3f2a1b.js" |})
  /\ body (respond Demo.env Demo.fs {| method := HEAD; path := "/assets/app-3f2a1b.js" |})
     <> FileBody Demo.app_js.
Proof.
  apply (head_like_get Demo.env Demo.fs "/assets/app-3f2a1b.js" Demo.index_html
           Demo.app_js).
  - reflexivity.
  - vm_compute. reflexivity.
  - reflexivity.
Defined.

End HeadLikeGet.

(** * The disk a response depends on *)

Section Frame.

Lemma chop_snoc (x : string) : Str.chop (x +:+ "/") = x.
Proof.
  induction x as [|a x IH]; [reflexivity|].
  rewrite str_app_cons. simpl. rewrite IH.
  destruct x; reflexivity.
Qed.

Lemma concat_names_no_trailing (k : list string) :
  Forall (fun s => Str.contains_char Str.is_slash s = false /\ s <> "") k ->
  k <> [] ->
  Str.ends_with_slash (String.concat "/" k) = false /\ String.concat "/" k <> "".
Proof.
  intros Hk. induction Hk as [|x k [Hx Hx'] Hk IH]; [congruence|]. intros _.
  destruct k as [|y k].
  - split; [now apply ends_with_slash_contains | exact Hx'].
  - destruct (IH ltac:(discriminate)) as [IH1 IH2].
    rewrite concat_cons2. split.
    + unfold Str.ends_with_slash in *. rewrite last_char_app by discriminate.
      remember (String.concat "/" (y :: k)) as z eqn:Ez. clear Ez.
      destruct z; [congruence | exact IH1].
    + destruct x; [congruence | discriminate].
Qed.

Variables (env : Env) (l : list string).
Hypothesis l_plain : plain_list l.
Hypothesis l_nonempty : l <> [].
Hypothesis l_dist : distPath env = abs_of l.

Lemma names_below (m : list string) :
  clean m ->
  Forall (fun s => Str.contains_char Str.is_slash s = false /\ s <> "") (l ++ m).
Proof.
  intros (Hm1 & Hm2 & _). apply Forall_app. split.
  - eapply Forall_impl; [exact l_plain|]. intros s Hs. split.
    + now apply plain_no_slash.
    + destruct (plain_seg_inv s Hs) as (c & s' & -> & _). discriminate.
  - rewrite Forall_forall in *. intros s Hs. split; [now apply Hm1|].
    specialize (Hm2 s Hs). unfold kept in Hm2. intros ->. discriminate Hm2.
Qed.

(* the node fs.stat looks up for a path the asset handler located *)
Lemma key_of_located (m : list string) (t : string) :
  clean m -> t = "" \/ t = "/" ->
  Fs.key_of (abs_of (l ++ m) +:+ t) = below (distPath env) m.
Proof.
  intros Hm Ht. rewrite l_dist, below_abs by assumption.
  assert (Hne : l ++ m <> []) by (destruct l; [congruence | discriminate]).
  destruct (concat_names_no_trailing _ (names_below m Hm) Hne) as [Hnt Hnn].
  assert (Hnt' : Str.ends_with_slash (abs_of (l ++ m)) = false).
  { rewrite abs_of_cons. unfold Str.ends_with_slash in *.
    remember (String.concat "/" (l ++ m)) as z eqn:Ez. clear Ez.
    destruct z; [congruence | exact Hnt]. }
  destruct Ht as [-> | ->].
  - rewrite str_app_nil_r. now apply chop_id_key.
  - unfold Fs.key_of. rewrite ends_with_slash_snoc, chop_snoc.
    rewrite abs_of_cons, str_app_cons.
    remember (String.concat "/" (l ++ m)) as z eqn:Ez. clear Ez.
    destruct z; [congruence | reflexivity].
Qed.

Variables (fs1 fs2 : gmap string Fs.Node).
Hypothesis same : same_build env fs1 fs2.

(* what a request path names does not depend on the rest of the disk *)
Lemma asset_target_frame (p : string) :
  asset_target env fs1 p = asset_target env fs2 p.
Proof.
  unfold asset_target.
  destruct (Send.locate _ _ p) as [?|full] eqn:El; [reflexivity|].
  destruct (locate_shape env l p full l_plain l_nonempty l_dist El)
    as (m & t & -> & Ht & Hm & _).
  unfold Fs.stat. rewrite (key_of_located m t Hm Ht), (same m Hm).
  destruct (fs2 !! below (distPath env) m) as [[c|]|]; reflexivity.
Qed.

Lemma entry_frame : fs1 !! entryPath env = fs2 !! entryPath env.
Proof.
  assert (E : entryPath env = below (distPath env) ["index.html"]).
  { unfold entryPath. rewrite l_dist, resolve_child by (assumption || reflexivity).
    now rewrite below_abs. }
  rewrite E. apply same. repeat split; repeat constructor; discriminate.
Qed.

End Frame.

(* the response depends on the disk through the build directory only *)
Lemma respond_frame (env : Env) (fs1 fs2 : gmap string Fs.Node) (req : Request) :
  plain_dir (dirname env) = true ->
  same_build env fs1 fs2 ->
  respond env fs1 req = respond env fs2 req.
Proof.
  intros Hd Hsame. destruct (distPath_form env Hd) as (l & Hl & Hne & E).
  unfold respond, Express.dispatch, installed.
  cbn [Express.dispatch_from Express.route Express.handle Route.matches].
  rewrite !asset_handler_eq.
  rewrite (asset_target_frame env l Hl Hne E fs1 fs2 Hsame).
  assert (Hfb : forall res,
            settle req (fallback_handler env fs1 req res)
            = settle req (fallback_handler env fs2 req res)).
  { intros res. rewrite !fallback_handler_eq, !sendFile_entry by assumption.
    rewrite (entry_frame env l Hl Hne E fs1 fs2 Hsame).
    destruct (fs2 !! entryPath env) as [[c|]|]; reflexivity. }
  assert (Hnext : forall res,
            fst (let '(out, ran) :=
                   Express.dispatch_from 1
                     [{| Express.route := catch_all;
                         Express.handle := fallback_handler env |}] fs1 req res in
                 (out, 0 :: ran))
            = fst (let '(out, ran) :=
                     Express.dispatch_from 1
                       [{| Express.route := catch_all;
                           Express.handle := fallback_handler env |}] fs2 req res in
                   (out, 0 :: ran))).
  { intros res. specialize (Hfb res).
    cbn [Express.dispatch_from Express.route Express.handle].
    destruct (Route.matches catch_all (path req)); [|reflexivity].
    destruct (fallback_handler env fs1 req res),
             (fallback_handler env fs2 req res); exact Hfb. }
  destruct (negb (is_get_or_head (method req))); [apply Hnext|].
  destruct (asset_target env fs2 (path req)); try apply Hnext; [reflexivity|].
  destruct (Str.ends_with_slash (path req)); [apply Hnext | reflexivity].
Qed.



(* the two sample disks agree on the build directory *)
Lemma same_build_more : same_build Demo.env Demo.fs Cases.fs_more.
Proof.
  intros m _. unfold Cases.fs_more. rewrite lookup_insert_ne; [reflexivity|].
  change (distPath Demo.env) with "/home/runner/workspace/dist/public".
  unfold below. destruct m as [|x m]; [discriminate|].
  rewrite !str_app_cons. discriminate.
Qed.

